(** * orderstracker: tracking market-making order state

    A shallow embedding of the Go package [orderstracker]
    (order.go, executionreport.go, tracker.go) and the properties of its
    order state machine, fill aggregation and quote store.

    Conventions of the embedding.
    - Every Go type with fields or methods is a module of the same name:
      [Order.t], [ExecutionReport.t], [orderContext.t], [marketData.t],
      [Tracker.t]; a method [func (t *Tracker) OrderFilled(...)] is
      [Tracker.OrderFilled].  The [iota] constants of an integer type live
      in the module of their type ([OrderStatus.OrderPlacing],
      [ExecutionReportKind.ReportFilled]), which keeps them apart from the
      methods of [Tracker] that carry the same name in Go.
    - [int] is [Z]; [uint64] is [N] with the wrap-around of every
      arithmetic operation written out ([add64], [mul64]) and the run-time
      panic of a division by zero made explicit ([div64]).
    - Go maps are stdpp [gmap]s.
    - An [orderContext] is allocated once, in [Tracker.OrderPlacing], at
      the moment its client identifier is bound in [t.orders]; the binding
      is never removed or replaced.  The cell is therefore addressed by
      its client identifier: [Tracker.orders] is at once the Go map and
      the store of the cells, and a [*orderContext] is either [None]
      ([nil]) or [Some clid].  A write through the pointer is a write into
      that store, observed by every holder of the pointer.
    - The mutex only serialises the methods; a method is one atomic step
      of the embedding. *)

From Stdlib Require Import ZArith NArith Ascii String Lia.
From stdpp Require Import gmap strings fin_maps.

Local Open Scope string_scope.

(** ** Machine integers *)

Definition uint64_modulus : N := (2 ^ 64)%N.

Definition add64 (a b : N) : N := ((a + b) mod uint64_modulus)%N.

Definition mul64 (a b : N) : N := ((a * b) mod uint64_modulus)%N.

(** Unsigned division; [None] is the Go run-time panic
    "integer divide by zero". *)
Definition div64 (a b : N) : option N :=
  if (b =? 0)%N then None else Some (a / b)%N.

(** ** order.go *)

Module OrderStatus.

Definition t : Type := Z.

Definition OrderUnplaced : t := 0%Z.
Definition OrderPlacing : t := 1%Z.
Definition OrderPlaced : t := 2%Z.
Definition OrderModifying : t := 3%Z.
Definition OrderCanceling : t := 4%Z.
Definition OrderFilled : t := 5%Z.

Definition String (o : t) : string :=
  if (o =? OrderUnplaced)%Z then "Unplaced"
  else if (o =? OrderPlacing)%Z then "Placing"
  else if (o =? OrderPlaced)%Z then "Placed"
  else if (o =? OrderModifying)%Z then "Modifying"
  else if (o =? OrderCanceling)%Z then "Canceling"
  else if (o =? OrderFilled)%Z then "Filled"
  else "Unknown".

End OrderStatus.

Definition OrderClientID : Type := string.

Module ExchangeID.

Definition t : Type := Z.

Definition ExchangeNone : t := 0%Z.
Definition ExchangeBinance : t := 1%Z.
Definition ExchangeKraken : t := 2%Z.
Definition ExchangeCount : t := 3%Z.

Definition String (eid : t) : string :=
  if (eid =? ExchangeNone)%Z then "None"
  else if (eid =? ExchangeBinance)%Z then "Binance"
  else if (eid =? ExchangeKraken)%Z then "Kraken"
  else "Unknown".

End ExchangeID.

Definition SymbolID : Type := string.

Module Order.

Record t : Type := mk {
  ClientID : OrderClientID;
  Exchange : ExchangeID.t;
  Symbol : SymbolID;
  Amount : N;
  Price : N
}.

Definition set_Price (price : N) (o : t) : t :=
  mk (ClientID o) (Exchange o) (Symbol o) (Amount o) price.

End Order.

Definition NewOrder (clid : OrderClientID) (exchange : ExchangeID.t)
    (symbol : SymbolID) (amount price : N) : Order.t :=
  {| Order.ClientID := clid;
     Order.Exchange := exchange;
     Order.Symbol := symbol;
     Order.Amount := amount;
     Order.Price := price |}.

(** ** executionreport.go *)

Module ExecutionReportKind.

Definition t : Type := Z.

Definition ReportNone : t := 0%Z.
Definition ReportPlaced : t := 1%Z.
Definition ReportModified : t := 2%Z.
Definition ReportCanceled : t := 3%Z.
Definition ReportFilled : t := 4%Z.
Definition ReportRejected : t := 5%Z.

End ExecutionReportKind.

(** [time.Time] is only stored and copied by the tracker: an instant is an
    integer, and the zero value [time.Time{}] is [0]. *)
Module time.

Definition Time : Type := Z.

End time.

Module ExecutionReport.

Record t : Type := mk {
  Kind : ExecutionReportKind.t;
  Time : time.Time;
  Message : string;
  Amount : N;
  Price : N
}.

(** The zero value of the struct. *)
Definition zero : t := mk ExecutionReportKind.ReportNone 0%Z "" 0%N 0%N.

Definition set_Kind (k : ExecutionReportKind.t) (r : t) : t :=
  mk k (Time r) (Message r) (Amount r) (Price r).
Definition set_Time (time : time.Time) (r : t) : t :=
  mk (Kind r) time (Message r) (Amount r) (Price r).
Definition set_Message (message : string) (r : t) : t :=
  mk (Kind r) (Time r) message (Amount r) (Price r).
Definition set_Amount (amount : N) (r : t) : t :=
  mk (Kind r) (Time r) (Message r) amount (Price r).
Definition set_Price (price : N) (r : t) : t :=
  mk (Kind r) (Time r) (Message r) (Amount r) price.

End ExecutionReport.

(** ** tracker.go *)

(** The values built by [fmt.Errorf] in tracker.go, one constructor per
    format string; the arguments are the operands of the format. *)
Inductive error : Type :=
| ErrAlreadyPlaced (clid : OrderClientID)
| ErrNotFound (clid : OrderClientID)
| ErrNotPlacing (clid : OrderClientID) (status : OrderStatus.t)
| ErrNotRejectable (clid : OrderClientID) (status : OrderStatus.t)
| ErrMovingNotPlaced (clid : OrderClientID) (status : OrderStatus.t)
| ErrNotModifying (clid : OrderClientID) (status : OrderStatus.t)
| ErrCancellingNotPlaced (clid : OrderClientID) (status : OrderStatus.t)
| ErrNotCanceling (clid : OrderClientID) (status : OrderStatus.t).

(** [err.Error()]: [%v] prints the client identifier, [%s] calls
    [OrderStatus.String]. *)
Definition Error (e : error) : string :=
  match e with
  | ErrAlreadyPlaced clid =>
      "order already placed (clid " ++ clid ++ ")"
  | ErrNotFound clid =>
      "order not found (clid " ++ clid ++ ")"
  | ErrNotPlacing clid status =>
      "order status is not 'OrderPlacing' (clid " ++ clid
        ++ ", status '" ++ OrderStatus.String status ++ "')"
  | ErrNotRejectable clid status =>
      "order status should be 'OrderPlacing', 'OrderModifying' or 'OrderCanceling' to reject (clid "
        ++ clid ++ ", status '" ++ OrderStatus.String status ++ "')"
  | ErrMovingNotPlaced clid status =>
      "orderContext status is not 'OrderPlaced' (clid " ++ clid
        ++ ", status '" ++ OrderStatus.String status ++ "')"
  | ErrNotModifying clid status =>
      "order status is not 'OrderModifying' (clid " ++ clid
        ++ ", status '" ++ OrderStatus.String status ++ "')"
  | ErrCancellingNotPlaced clid status =>
      "order status is not 'OrderPlaced' (clid " ++ clid
        ++ ", status '" ++ OrderStatus.String status ++ "')"
  | ErrNotCanceling clid status =>
      "order status is not 'OrderCanceling' (clid " ++ clid
        ++ ", status '" ++ OrderStatus.String status ++ "')"
  end.

(** How a call of a method ends: it returns its [error] result ([None] is
    [nil]), or the run-time panics.  The deferred [Unlock] runs in both
    cases, and the writes made before a panic stay in the tracker. *)
Inductive outcome : Type :=
| Returned (err : option error)
| Panicked (message : string).

Definition divide_by_zero : string := "runtime error: integer divide by zero".

Module orderContext.

Record t : Type := mk {
  Status : OrderStatus.t;
  Order : Order.t;
  LastReport : ExecutionReport.t
}.

Definition set_Status (status : OrderStatus.t) (c : t) : t :=
  mk status (Order c) (LastReport c).
Definition set_Order (order : Order.t) (c : t) : t :=
  mk (Status c) order (LastReport c).
Definition set_LastReport (report : ExecutionReport.t) (c : t) : t :=
  mk (Status c) (Order c) report.

End orderContext.

Module marketData.

Record t : Type := mk {
  bid : N;
  ask : N;
  orderContext : option OrderClientID
}.

(** The zero value, which a Go map yields for an absent key. *)
Definition zero : t := mk 0%N 0%N None.

Definition set_bid (b : N) (m : t) : t := mk b (ask m) (orderContext m).
Definition set_ask (a : N) (m : t) : t := mk (bid m) a (orderContext m).
Definition set_orderContext (p : option OrderClientID) (m : t) : t :=
  mk (bid m) (ask m) p.

End marketData.

Module Tracker.

Record t : Type := mk {
  exchanges : gmap ExchangeID.t (gmap SymbolID marketData.t);
  orders : gmap OrderClientID orderContext.t
}.

(** The receiver of the methods is called [t], as in the Go source; its
    type is written [Tracker] inside this module. *)
Definition Tracker : Type := t.

(** A write through [orderContext := t.orders[clid]]: the cell of [clid]
    now holds [c]. *)
Definition store (clid : OrderClientID) (c : orderContext.t) (t : Tracker)
    : Tracker :=
  mk (exchanges t) (<[clid := c]> (orders t)).

(** [exchange[symbol] = m] on the map held at [t.exchanges[exchange]]. *)
Definition set_marketData (exchangeID : ExchangeID.t)
    (exchange : gmap SymbolID marketData.t) (symbolID : SymbolID)
    (m : marketData.t) (t : Tracker) : Tracker :=
  mk (<[exchangeID := <[symbolID := m]> exchange]> (exchanges t)) (orders t).

(** [t.exchanges[exchangeID]], with a fresh map made for a [nil] one. *)
Definition exchange_or_make (exchangeID : ExchangeID.t) (t : Tracker)
    : gmap SymbolID marketData.t :=
  match exchanges t !! exchangeID with
  | Some exchange => exchange
  | None => ∅
  end.

(** [exchange[symbolID]]: the zero value for an absent key. *)
Definition symbolContext_of (exchange : gmap SymbolID marketData.t)
    (symbolID : SymbolID) : marketData.t :=
  match exchange !! symbolID with
  | Some m => m
  | None => marketData.zero
  end.

(** OrderPlacing registers a new order in the tracker as pending
    placement.  The new cell is [&orderContext{Status: OrderPlacing,
    Order: order}], its report being the zero value. *)
Definition OrderPlacing (t : Tracker) (order : Order.t) : Tracker * outcome :=
  match orders t !! Order.ClientID order with
  | Some _ => (t, Returned (Some (ErrAlreadyPlaced (Order.ClientID order))))
  | None =>
      let orderContext :=
        orderContext.mk OrderStatus.OrderPlacing order ExecutionReport.zero in
      let t := store (Order.ClientID order) orderContext t in
      let exchange := exchange_or_make (Order.Exchange order) t in
      let symbolContext := symbolContext_of exchange (Order.Symbol order) in
      let symbolContext :=
        marketData.set_orderContext (Some (Order.ClientID order)) symbolContext in
      (set_marketData (Order.Exchange order) exchange (Order.Symbol order)
         symbolContext t,
       Returned None)
  end.

(** OrderPlaceConfirmed confirms that an order has been placed. *)
Definition OrderPlaceConfirmed (t : Tracker) (clid : OrderClientID)
    (time : time.Time) : Tracker * outcome :=
  match orders t !! clid with
  | None => (t, Returned (Some (ErrNotFound clid)))
  | Some orderContext =>
      let report := orderContext.LastReport orderContext in
      let report := ExecutionReport.set_Kind ExecutionReportKind.ReportPlaced report in
      let report := ExecutionReport.set_Time time report in
      let orderContext := orderContext.set_LastReport report orderContext in
      if negb (orderContext.Status orderContext =? OrderStatus.OrderPlacing)%Z then
        (store clid orderContext t,
         Returned (Some (ErrNotPlacing clid (orderContext.Status orderContext))))
      else
        (store clid (orderContext.set_Status OrderStatus.OrderPlaced orderContext) t,
         Returned None)
  end.

(** OrderRejected records a rejection and reverts a pending request. *)
Definition OrderRejected (t : Tracker) (clid : OrderClientID)
    (time : time.Time) (reason : string) : Tracker * outcome :=
  match orders t !! clid with
  | None => (t, Returned (Some (ErrNotFound clid)))
  | Some orderContext =>
      let report := orderContext.LastReport orderContext in
      let report := ExecutionReport.set_Kind ExecutionReportKind.ReportRejected report in
      let report := ExecutionReport.set_Time time report in
      let report := ExecutionReport.set_Message reason report in
      let orderContext := orderContext.set_LastReport report orderContext in
      if (orderContext.Status orderContext =? OrderStatus.OrderPlacing)%Z then
        (store clid (orderContext.set_Status OrderStatus.OrderUnplaced orderContext) t,
         Returned None)
      else if ((orderContext.Status orderContext =? OrderStatus.OrderModifying)%Z
               || (orderContext.Status orderContext =? OrderStatus.OrderCanceling)%Z)
      then
        (store clid (orderContext.set_Status OrderStatus.OrderPlaced orderContext) t,
         Returned None)
      else
        (store clid orderContext t,
         Returned (Some (ErrNotRejectable clid (orderContext.Status orderContext))))
  end.

(** OrderMoving initiates the order price modification. *)
Definition OrderMoving (t : Tracker) (clid : OrderClientID) : Tracker * outcome :=
  match orders t !! clid with
  | None => (t, Returned (Some (ErrNotFound clid)))
  | Some orderContext =>
      if negb (orderContext.Status orderContext =? OrderStatus.OrderPlaced)%Z then
        (t, Returned (Some (ErrMovingNotPlaced clid (orderContext.Status orderContext))))
      else
        let orderContext :=
          orderContext.set_Status OrderStatus.OrderModifying orderContext in
        let orderContext :=
          orderContext.set_LastReport
            (ExecutionReport.set_Kind ExecutionReportKind.ReportNone
               (orderContext.LastReport orderContext))
            orderContext in
        (store clid orderContext t, Returned None)
  end.

(** OrderMoveConfirmed confirms a previously initiated modification. *)
Definition OrderMoveConfirmed (t : Tracker) (clid : OrderClientID)
    (time : time.Time) (price : N) : Tracker * outcome :=
  match orders t !! clid with
  | None => (t, Returned (Some (ErrNotFound clid)))
  | Some orderContext =>
      let report := orderContext.LastReport orderContext in
      let report := ExecutionReport.set_Kind ExecutionReportKind.ReportModified report in
      let report := ExecutionReport.set_Time time report in
      let report := ExecutionReport.set_Price price report in
      let orderContext := orderContext.set_LastReport report orderContext in
      if negb (orderContext.Status orderContext =? OrderStatus.OrderModifying)%Z then
        (store clid orderContext t,
         Returned (Some (ErrNotModifying clid (orderContext.Status orderContext))))
      else
        let orderContext :=
          orderContext.set_Status OrderStatus.OrderPlaced orderContext in
        let orderContext :=
          orderContext.set_Order
            (Order.set_Price price (orderContext.Order orderContext))
            orderContext in
        (store clid orderContext t, Returned None)
  end.

(** OrderCancelling initiates the cancellation of an active order. *)
Definition OrderCancelling (t : Tracker) (clid : OrderClientID)
    : Tracker * outcome :=
  match orders t !! clid with
  | None => (t, Returned (Some (ErrNotFound clid)))
  | Some orderContext =>
      if negb (orderContext.Status orderContext =? OrderStatus.OrderPlaced)%Z then
        (t, Returned (Some (ErrCancellingNotPlaced clid
                              (orderContext.Status orderContext))))
      else
        let orderContext :=
          orderContext.set_Status OrderStatus.OrderCanceling orderContext in
        let orderContext :=
          orderContext.set_LastReport
            (ExecutionReport.set_Kind ExecutionReportKind.ReportNone
               (orderContext.LastReport orderContext))
            orderContext in
        (store clid orderContext t, Returned None)
  end.

(** OrderCancelConfirmed finalizes an order cancellation. *)
Definition OrderCancelConfirmed (t : Tracker) (clid : OrderClientID)
    (time : time.Time) : Tracker * outcome :=
  match orders t !! clid with
  | None => (t, Returned (Some (ErrNotFound clid)))
  | Some orderContext =>
      let report := orderContext.LastReport orderContext in
      let report := ExecutionReport.set_Kind ExecutionReportKind.ReportCanceled report in
      let report := ExecutionReport.set_Time time report in
      let orderContext := orderContext.set_LastReport report orderContext in
      if negb (orderContext.Status orderContext =? OrderStatus.OrderCanceling)%Z then
        (store clid orderContext t,
         Returned (Some (ErrNotCanceling clid (orderContext.Status orderContext))))
      else
        (store clid (orderContext.set_Status OrderStatus.OrderUnplaced orderContext) t,
         Returned None)
  end.

(** OrderFilled records a full or partial fill; successive fills are
    aggregated with a volume weighted average price.  The status and the
    time are written before the division, so they are in the tracker when
    the division panics. *)
Definition OrderFilled (t : Tracker) (clid : OrderClientID) (time : time.Time)
    (executedAmount avgPrice : N) : Tracker * outcome :=
  match orders t !! clid with
  | None => (t, Returned (Some (ErrNotFound clid)))
  | Some orderContext =>
      let orderContext :=
        orderContext.set_Status OrderStatus.OrderFilled orderContext in
      let report :=
        ExecutionReport.set_Time time (orderContext.LastReport orderContext) in
      if (ExecutionReport.Kind report =? ExecutionReportKind.ReportFilled)%Z then
        match
          div64
            (add64
               (mul64 (ExecutionReport.Amount report) (ExecutionReport.Price report))
               (mul64 executedAmount avgPrice))
            (add64 (ExecutionReport.Amount report) executedAmount)
        with
        | None =>
            (store clid (orderContext.set_LastReport report orderContext) t,
             Panicked divide_by_zero)
        | Some vwap =>
            let report := ExecutionReport.set_Price vwap report in
            let report :=
              ExecutionReport.set_Amount
                (add64 (ExecutionReport.Amount report) executedAmount) report in
            (store clid (orderContext.set_LastReport report orderContext) t,
             Returned None)
        end
      else
        let report :=
          ExecutionReport.set_Kind ExecutionReportKind.ReportFilled report in
        let report := ExecutionReport.set_Amount executedAmount report in
        let report := ExecutionReport.set_Price avgPrice report in
        (store clid (orderContext.set_LastReport report orderContext) t,
         Returned None)
  end.

(** GetOrderStatus copies the order and its last report into [*order] and
    [*executionReport]; the two out-parameters are passed in with their
    current contents and handed back with the new ones. *)
Definition GetOrderStatus (t : Tracker) (clid : OrderClientID)
    (order : Order.t) (executionReport : ExecutionReport.t)
    : Order.t * ExecutionReport.t * (OrderStatus.t * option error) :=
  match orders t !! clid with
  | None =>
      (order, executionReport,
       (OrderStatus.OrderUnplaced, Some (ErrNotFound clid)))
  | Some orderContext =>
      (orderContext.Order orderContext, orderContext.LastReport orderContext,
       (orderContext.Status orderContext, None))
  end.

(** PushQuote updates the market data of a symbol on an exchange. *)
Definition PushQuote (t : Tracker) (exchangeID : ExchangeID.t)
    (symbolID : SymbolID) (bid ask : N) : Tracker :=
  let exchange := exchange_or_make exchangeID t in
  let symbolContext := symbolContext_of exchange symbolID in
  let symbolContext := marketData.set_bid bid symbolContext in
  let symbolContext := marketData.set_ask ask symbolContext in
  set_marketData exchangeID exchange symbolID symbolContext t.

(** GetOrdersCount returns [len(t.orders)]. *)
Definition GetOrdersCount (t : Tracker) : Z := Z.of_nat (size (orders t)).

End Tracker.

Definition NewTracker : Tracker.t :=
  {| Tracker.exchanges := ∅; Tracker.orders := ∅ |}.

(** ** String methods *)



(** The constants of the two enumerations the tracker stores, in the order
    of their declaration. *)
Definition OrderStatus_values : list OrderStatus.t :=
  [OrderStatus.OrderUnplaced; OrderStatus.OrderPlacing; OrderStatus.OrderPlaced;
   OrderStatus.OrderModifying; OrderStatus.OrderCanceling; OrderStatus.OrderFilled].

Definition ExecutionReportKind_values : list ExecutionReportKind.t :=
  [ExecutionReportKind.ReportNone; ExecutionReportKind.ReportPlaced;
   ExecutionReportKind.ReportModified; ExecutionReportKind.ReportCanceled;
   ExecutionReportKind.ReportFilled; ExecutionReportKind.ReportRejected].

(** ** Sequences of calls *)

(** One call of a mutating method of the tracker. *)
Inductive call : Type :=
| CallOrderPlacing (order : Order.t)
| CallOrderPlaceConfirmed (clid : OrderClientID) (time : time.Time)
| CallOrderRejected (clid : OrderClientID) (time : time.Time) (reason : string)
| CallOrderMoving (clid : OrderClientID)
| CallOrderMoveConfirmed (clid : OrderClientID) (time : time.Time) (price : N)
| CallOrderCancelling (clid : OrderClientID)
| CallOrderCancelConfirmed (clid : OrderClientID) (time : time.Time)
| CallOrderFilled (clid : OrderClientID) (time : time.Time)
    (executedAmount avgPrice : N)
| CallPushQuote (exchangeID : ExchangeID.t) (symbolID : SymbolID) (bid ask : N).

Definition perform (t : Tracker.t) (c : call) : Tracker.t * outcome :=
  match c with
  | CallOrderPlacing order => Tracker.OrderPlacing t order
  | CallOrderPlaceConfirmed clid time => Tracker.OrderPlaceConfirmed t clid time
  | CallOrderRejected clid time reason => Tracker.OrderRejected t clid time reason
  | CallOrderMoving clid => Tracker.OrderMoving t clid
  | CallOrderMoveConfirmed clid time price =>
      Tracker.OrderMoveConfirmed t clid time price
  | CallOrderCancelling clid => Tracker.OrderCancelling t clid
  | CallOrderCancelConfirmed clid time => Tracker.OrderCancelConfirmed t clid time
  | CallOrderFilled clid time executedAmount avgPrice =>
      Tracker.OrderFilled t clid time executedAmount avgPrice
  | CallPushQuote exchangeID symbolID bid ask =>
      (Tracker.PushQuote t exchangeID symbolID bid ask, Returned None)
  end.

(** The tracker after a sequence of calls, whatever their outcomes: the
    caller may ignore an error or recover from a panic and go on. *)
Fixpoint perform_all (t : Tracker.t) (cs : list call) : Tracker.t :=
  match cs with
  | [] => t
  | c :: cs => perform_all (perform t c).1 cs
  end.

(** The cell of a tracked order. *)
Definition context (t : Tracker.t) (clid : OrderClientID)
    : option orderContext.t :=
  Tracker.orders t !! clid.

(** The last execution report of a tracked order. *)
Definition last_report (t : Tracker.t) (clid : OrderClientID)
    : option ExecutionReport.t :=
  orderContext.LastReport <$> context t clid.

(** The order [clid] is tracked with status Filled and a fill report of
    the given cumulative amount and price. *)
Definition filled_with (t : Tracker.t) (clid : OrderClientID)
    (amount price : N) : Prop :=
  exists c,
    context t clid = Some c
    /\ orderContext.Status c = OrderStatus.OrderFilled
    /\ ExecutionReport.Kind (orderContext.LastReport c)
       = ExecutionReportKind.ReportFilled
    /\ ExecutionReport.Amount (orderContext.LastReport c) = amount
    /\ ExecutionReport.Price (orderContext.LastReport c) = price.

(** The market data of a (venue, instrument) pair, if the pair has an
    entry in the nested map. *)
Definition quote (t : Tracker.t) (exchangeID : ExchangeID.t)
    (symbolID : SymbolID) : option marketData.t :=
  match Tracker.exchanges t !! exchangeID with
  | Some exchange => exchange !! symbolID
  | None => None
  end.

(** The error taxonomy of the specification, read off the error values of
    tracker.go: the message "already placed" is a duplicate order, "not
    found" an unknown identifier, and every status complaint an invalid
    transition. *)
Inductive error_class : Type := DuplicateOrder | OrderNotFound | InvalidTransition.

Definition classify (e : error) : error_class :=
  match e with
  | ErrAlreadyPlaced _ => DuplicateOrder
  | ErrNotFound _ => OrderNotFound
  | ErrNotPlacing _ _ | ErrNotRejectable _ _ | ErrMovingNotPlaced _ _
  | ErrNotModifying _ _ | ErrCancellingNotPlaced _ _ | ErrNotCanceling _ _ =>
      InvalidTransition
  end.

(** ** Sample orders and trackers *)

Definition order_a : Order.t :=
  NewOrder "a" ExchangeID.ExchangeBinance "TEST" 1000 10.

(** The tracker after [order_a] has been placed. *)
Definition tracker_placing : Tracker.t :=
  perform_all NewTracker [CallOrderPlacing order_a].

(** The tracker after [order_a] has been placed and confirmed. *)
Definition tracker_placed : Tracker.t :=
  perform_all NewTracker
    [CallOrderPlacing order_a; CallOrderPlaceConfirmed "a" 1%Z].

(** The tracker after a price move of the placed [order_a] was started. *)
Definition tracker_modifying : Tracker.t :=
  perform_all tracker_placed [CallOrderMoving "a"].

(** The tracker after [order_a] has been placed and a first fill of 100 at
    price 10 has been reported. *)
Definition tracker_filled : Tracker.t :=
  perform_all NewTracker
    [CallOrderPlacing order_a; CallOrderFilled "a" 1%Z 100 10].

(** The tracker after [order_a] has been placed and a fill of amount 0 has
    been reported. *)
Definition tracker_filled_zero : Tracker.t :=
  perform_all NewTracker
    [CallOrderPlacing order_a; CallOrderFilled "a" 1%Z 0 5].

(** The tracker after [order_a] has been placed and a fill of
    5_000_000_000 at price 4_000_000_000 has been reported. *)
Definition tracker_filled_large : Tracker.t :=
  perform_all NewTracker
    [CallOrderPlacing order_a;
     CallOrderFilled "a" 1%Z 5000000000 4000000000].

(** ** order.go: identifier and order generation *)

(** [int64] wrap-around and the conversion [uint64(x)] of an [int64]. *)
Definition wrap_int64 (z : Z) : Z := ((z + 2 ^ 63) mod 2 ^ 64 - 2 ^ 63)%Z.

Definition uint64_of_int64 (z : Z) : N := Z.to_N (z mod 2 ^ 64)%Z.

(** [digits[d]] of strconv, for a digit below 16. *)
Definition hex_digit (d : N) : ascii :=
  match d with
  | 0 => "0" | 1 => "1" | 2 => "2" | 3 => "3" | 4 => "4" | 5 => "5"
  | 6 => "6" | 7 => "7" | 8 => "8" | 9 => "9" | 10 => "a" | 11 => "b"
  | 12 => "c" | 13 => "d" | 14 => "e" | _ => "f"
  end%N%char.

(** The loop of strconv's [formatBits] for base 16: while [u >= 16] the
    digit of [u & 15] is written in front of [a] and [u] is shifted right
    by 4; the last digit is that of [u].  A [uint64] takes the loop at most
    15 times. *)
Fixpoint formatBits16 (fuel : nat) (u : N) (a : string) : string :=
  match fuel with
  | O => String (hex_digit u) a
  | S fuel =>
      if (16 <=? u)%N
      then formatBits16 fuel (N.shiftr u 4) (String (hex_digit (N.land u 15)) a)
      else String (hex_digit u) a
  end.

(** [strconv.FormatUint(u, 16)]. *)
Definition FormatUint16 (u : N) : string := formatBits16 15 u "".

(** [GenerateClientOrderID], with its two sources made explicit: [now] is
    [time.Now().Unix()] and [clientIDCounter] the value of the atomic
    [uint32] counter before the call.  The result is the identifier and the
    counter after [Add(1)]. *)
Definition GenerateClientOrderID (now : Z) (clientIDCounter : N)
    : OrderClientID * N :=
  let counter := ((clientIDCounter + 1) mod 2 ^ 32)%N in
  let id :=
    N.lor (uint64_of_int64 (wrap_int64 (Z.shiftl now 16)))
          (N.land counter 65535) in
  (FormatUint16 id, counter).

(** [GenerateOrderWithSymbol]; besides the clock and the counter, the three
    draws [rand.IntN(int(ExchangeCount)-1)], [rand.Uint64N(1000000000)] and
    [rand.Uint64N(1000000)] are arguments. *)
Definition GenerateOrderWithSymbol (symbol : SymbolID) (now : Z)
    (clientIDCounter : N) (drawExchange : Z) (drawAmount drawPrice : N)
    : Order.t * N :=
  let generated := GenerateClientOrderID now clientIDCounter in
  ({| Order.ClientID := generated.1;
      Order.Exchange := (drawExchange + 1)%Z;
      Order.Symbol := symbol;
      Order.Amount := add64 drawAmount 1;
      Order.Price := add64 drawPrice 1 |},
   generated.2).

(** The value of a hexadecimal digit and of a hexadecimal numeral, read
    from the left with [v] the value read so far. *)
Definition hex_value (c : ascii) : N :=
  match c with
  | "0" => 0 | "1" => 1 | "2" => 2 | "3" => 3 | "4" => 4 | "5" => 5
  | "6" => 6 | "7" => 7 | "8" => 8 | "9" => 9 | "a" => 10 | "b" => 11
  | "c" => 12 | "d" => 13 | "e" => 14 | "f" => 15 | _ => 0
  end%char%N.

Fixpoint parse_hex (s : string) (v : N) : N :=
  match s with
  | EmptyString => v
  | String c s => parse_hex s (16 * v + hex_value c)%N
  end.

(** ** The state machine of tracker.go *)

(** The status changes the methods make, named after the method. *)
Inductive status_step : OrderStatus.t -> OrderStatus.t -> Prop :=
| step_none (s : OrderStatus.t) : status_step s s
| step_place_confirmed :
    status_step OrderStatus.OrderPlacing OrderStatus.OrderPlaced
| step_place_rejected :
    status_step OrderStatus.OrderPlacing OrderStatus.OrderUnplaced
| step_change_rejected (s : OrderStatus.t) :
    s = OrderStatus.OrderModifying \/ s = OrderStatus.OrderCanceling ->
    status_step s OrderStatus.OrderPlaced
| step_moving :
    status_step OrderStatus.OrderPlaced OrderStatus.OrderModifying
| step_move_confirmed :
    status_step OrderStatus.OrderModifying OrderStatus.OrderPlaced
| step_cancelling :
    status_step OrderStatus.OrderPlaced OrderStatus.OrderCanceling
| step_cancel_confirmed :
    status_step OrderStatus.OrderCanceling OrderStatus.OrderUnplaced
| step_filled (s : OrderStatus.t) : status_step s OrderStatus.OrderFilled.

(** The outcomes of a sequence of calls, in order. *)
Fixpoint perform_trace (t : Tracker.t) (calls : list call) : list outcome :=
  match calls with
  | [] => []
  | c :: calls => (perform t c).2 :: perform_trace (perform t c).1 calls
  end.

(** The identifiers of the orders a sequence of calls asks to place. *)
Fixpoint placed_ids (calls : list call) : gset OrderClientID :=
  match calls with
  | [] => ∅
  | CallOrderPlacing order :: calls =>
      {[Order.ClientID order]} ∪ placed_ids calls
  | _ :: calls => placed_ids calls
  end.

(** The identifier a call is made for, if it is made for one. *)
Definition call_clid (c : call) : option OrderClientID :=
  match c with
  | CallOrderPlacing order => Some (Order.ClientID order)
  | CallOrderPlaceConfirmed clid _ | CallOrderRejected clid _ _
  | CallOrderMoving clid | CallOrderMoveConfirmed clid _ _
  | CallOrderCancelling clid | CallOrderCancelConfirmed clid _
  | CallOrderFilled clid _ _ _ => Some clid
  | CallPushQuote _ _ _ _ => None
  end.

(** What holds of every tracker built from [NewTracker] by calls: a cell
    is filed under the identifier of its order, its status and report kind
    are declared constants, its (venue, instrument) pair has market data,
    and a back-reference of the market data leads to a tracked order of
    that pair. *)
Definition consistent (t : Tracker.t) : Prop :=
  (forall clid c,
     context t clid = Some c ->
     Order.ClientID (orderContext.Order c) = clid
     /\ orderContext.Status c ∈ OrderStatus_values
     /\ ExecutionReport.Kind (orderContext.LastReport c)
          ∈ ExecutionReportKind_values
     /\ is_Some (quote t (Order.Exchange (orderContext.Order c))
                   (Order.Symbol (orderContext.Order c))))
  /\ (forall exchangeID symbolID m clid,
        quote t exchangeID symbolID = Some m ->
        marketData.orderContext m = Some clid ->
        exists c,
          context t clid = Some c
          /\ Order.Exchange (orderContext.Order c) = exchangeID
          /\ Order.Symbol (orderContext.Order c) = symbolID).

(** * Properties *)

(** ** Enumerations and their names *)

Lemma OrderStatus_values_range (o : OrderStatus.t) :
  o ∈ OrderStatus_values <-> (0 <= o <= 5)%Z.
Proof.
  unfold OrderStatus_values, OrderStatus.OrderUnplaced, OrderStatus.OrderPlacing,
    OrderStatus.OrderPlaced, OrderStatus.OrderModifying,
    OrderStatus.OrderCanceling, OrderStatus.OrderFilled.
  rewrite !elem_of_cons, elem_of_nil. lia.
Qed.






(** ** Reading the tracker after a write *)

Lemma context_store (t : Tracker.t) (clid : OrderClientID) (c : orderContext.t) :
  context (Tracker.store clid c t) clid = Some c.
Proof. unfold context, Tracker.store. simpl. apply lookup_insert_eq. Qed.

Lemma context_store_ne (t : Tracker.t) (clid clid' : OrderClientID)
    (c : orderContext.t) :
  clid <> clid' -> context (Tracker.store clid c t) clid' = context t clid'.
Proof.
  intros Hne. unfold context, Tracker.store. simpl.
  now apply lookup_insert_ne.
Qed.

Lemma context_set_marketData (t : Tracker.t) (exchangeID : ExchangeID.t)
    (exchange : gmap SymbolID marketData.t) (symbolID : SymbolID)
    (m : marketData.t) (clid : OrderClientID) :
  context (Tracker.set_marketData exchangeID exchange symbolID m t) clid
  = context t clid.
Proof. reflexivity. Qed.

Lemma quote_set_marketData (t : Tracker.t) (exchangeID : ExchangeID.t)
    (symbolID : SymbolID) (m : marketData.t) :
  quote
    (Tracker.set_marketData exchangeID (Tracker.exchange_or_make exchangeID t)
       symbolID m t)
    exchangeID symbolID
  = Some m.
Proof.
  unfold quote, Tracker.set_marketData. simpl.
  rewrite lookup_insert_eq. apply lookup_insert_eq.
Qed.

Lemma quote_set_marketData_ne (t : Tracker.t) (exchangeID exchangeID' : ExchangeID.t)
    (symbolID symbolID' : SymbolID) (m : marketData.t) :
  (exchangeID', symbolID') <> (exchangeID, symbolID) ->
  quote
    (Tracker.set_marketData exchangeID (Tracker.exchange_or_make exchangeID t)
       symbolID m t)
    exchangeID' symbolID'
  = quote t exchangeID' symbolID'.
Proof.
  intros Hne. unfold quote, Tracker.set_marketData, Tracker.exchange_or_make.
  simpl.
  destruct (decide (exchangeID = exchangeID')) as [<-|Hex].
  - rewrite lookup_insert_eq.
    assert (Hsym : symbolID <> symbolID') by congruence.
    rewrite lookup_insert_ne by exact Hsym.
    destruct (Tracker.exchanges t !! exchangeID); [reflexivity|].
    apply lookup_empty.
  - rewrite lookup_insert_ne by exact Hex. reflexivity.
Qed.

(** ** Placing an order *)

(** C7.  Placing an order whose identifier is not in the order index
    succeeds, raises the order count by exactly one and leaves the order
    in status Placing; placing one whose identifier is present fails with
    a duplicate-order error and leaves the count unchanged. *)
Theorem OrderPlacing_fresh_or_duplicate (t : Tracker.t) (order : Order.t) :
  let r := Tracker.OrderPlacing t order in
  (context t (Order.ClientID order) = None ->
     r.2 = Returned None
     /\ Tracker.GetOrdersCount r.1 = (Tracker.GetOrdersCount t + 1)%Z
     /\ exists c,
          context r.1 (Order.ClientID order) = Some c
          /\ orderContext.Status c = OrderStatus.OrderPlacing
          /\ orderContext.Order c = order)
  /\ (is_Some (context t (Order.ClientID order)) ->
        (exists e, r.2 = Returned (Some e) /\ classify e = DuplicateOrder)
        /\ Tracker.GetOrdersCount r.1 = Tracker.GetOrdersCount t).
Proof.
  unfold context, Tracker.OrderPlacing. simpl. split.
  - intros Hfresh. rewrite Hfresh. simpl.
    split; [reflexivity|]. split.
    + unfold Tracker.GetOrdersCount, Tracker.store. simpl.
      rewrite map_size_insert_None by exact Hfresh. lia.
    + eexists. split; [apply lookup_insert_eq|]. split; reflexivity.
  - intros [c Hc]. rewrite Hc. simpl. split; [|reflexivity].
    eexists. split; reflexivity.
Qed.

Lemma OrderPlacing_fresh_or_duplicate_witness :
  let order := NewOrder "a" ExchangeID.ExchangeBinance "TEST" 1000 10 in
  (context NewTracker "a" = None
   /\ (Tracker.OrderPlacing NewTracker order).2 = Returned None
   /\ Tracker.GetOrdersCount (Tracker.OrderPlacing NewTracker order).1 = 1%Z)
  /\ (is_Some (context (Tracker.OrderPlacing NewTracker order).1 "a")
      /\ Tracker.GetOrdersCount
           (Tracker.OrderPlacing (Tracker.OrderPlacing NewTracker order).1 order).1
         = 1%Z).
Proof.
  intros order. split.
  - assert (Hfresh : context NewTracker (Order.ClientID order) = None)
      by reflexivity.
    split; [exact Hfresh|].
    destruct (proj1 (OrderPlacing_fresh_or_duplicate NewTracker order) Hfresh)
      as (Hret & Hcount & _).
    split; [exact Hret | exact Hcount].
  - assert (Hdup : is_Some (context (Tracker.OrderPlacing NewTracker order).1
                              (Order.ClientID order))).
    { eexists. vm_compute. reflexivity. }
    split; [exact Hdup|].
    destruct (proj2 (OrderPlacing_fresh_or_duplicate
                       (Tracker.OrderPlacing NewTracker order).1 order) Hdup)
      as (_ & Hcount).
    rewrite Hcount. reflexivity.
Defined.

(** ** Operations that change nothing when they fail *)

Lemma OrderMoving_error_iff (t : Tracker.t) (clid : OrderClientID) :
  (exists e, (Tracker.OrderMoving t clid).2 = Returned (Some e))
  <-> (forall c, context t clid = Some c ->
                 orderContext.Status c <> OrderStatus.OrderPlaced).
Proof.
  unfold context, Tracker.OrderMoving.
  destruct (Tracker.orders t !! clid) as [c|]; simpl.
  - destruct (Z.eqb_spec (orderContext.Status c) OrderStatus.OrderPlaced)
      as [Heq|Hne]; simpl.
    + split.
      * intros [e He]. discriminate He.
      * intros Hall. exfalso. exact (Hall c eq_refl Heq).
    + split; [|eauto]. intros _ c' Hc'. congruence.
  - split; [|eauto]. intros _ c' Hc'. discriminate Hc'.
Qed.

Lemma OrderCancelling_error_iff (t : Tracker.t) (clid : OrderClientID) :
  (exists e, (Tracker.OrderCancelling t clid).2 = Returned (Some e))
  <-> (forall c, context t clid = Some c ->
                 orderContext.Status c <> OrderStatus.OrderPlaced).
Proof.
  unfold context, Tracker.OrderCancelling.
  destruct (Tracker.orders t !! clid) as [c|]; simpl.
  - destruct (Z.eqb_spec (orderContext.Status c) OrderStatus.OrderPlaced)
      as [Heq|Hne]; simpl.
    + split.
      * intros [e He]. discriminate He.
      * intros Hall. exfalso. exact (Hall c eq_refl Heq).
    + split; [|eauto]. intros _ c' Hc'. congruence.
  - split; [|eauto]. intros _ c' Hc'. discriminate Hc'.
Qed.

Lemma OrderMoving_error_unchanged (t : Tracker.t) (clid : OrderClientID)
    (e : error) :
  (Tracker.OrderMoving t clid).2 = Returned (Some e) ->
  (Tracker.OrderMoving t clid).1 = t.
Proof.
  unfold Tracker.OrderMoving.
  destruct (Tracker.orders t !! clid) as [c|]; simpl; [|reflexivity].
  destruct (orderContext.Status c =? OrderStatus.OrderPlaced)%Z; simpl;
    [discriminate | reflexivity].
Qed.

Lemma OrderCancelling_error_unchanged (t : Tracker.t) (clid : OrderClientID)
    (e : error) :
  (Tracker.OrderCancelling t clid).2 = Returned (Some e) ->
  (Tracker.OrderCancelling t clid).1 = t.
Proof.
  unfold Tracker.OrderCancelling.
  destruct (Tracker.orders t !! clid) as [c|]; simpl; [|reflexivity].
  destruct (orderContext.Status c =? OrderStatus.OrderPlaced)%Z; simpl;
    [discriminate | reflexivity].
Qed.

Lemma OrderPlacing_error_unchanged (t : Tracker.t) (order : Order.t) (e : error) :
  (Tracker.OrderPlacing t order).2 = Returned (Some e) ->
  (Tracker.OrderPlacing t order).1 = t.
Proof.
  unfold Tracker.OrderPlacing.
  destruct (Tracker.orders t !! Order.ClientID order) as [c|]; simpl;
    [reflexivity | discriminate].
Qed.

(** The confirmations and the rejection are not atomic: a failed call
    leaves its report in the tracker. *)
Lemma confirmations_write_on_error :
  (exists e,
     (Tracker.OrderPlaceConfirmed tracker_placed "a" 2%Z).2 = Returned (Some e)
     /\ (Tracker.OrderPlaceConfirmed tracker_placed "a" 2%Z).1 <> tracker_placed)
  /\ (exists e,
        (Tracker.OrderRejected tracker_placed "a" 2%Z "late").2
          = Returned (Some e)
        /\ (Tracker.OrderRejected tracker_placed "a" 2%Z "late").1
            <> tracker_placed)
  /\ (exists e,
        (Tracker.OrderMoveConfirmed tracker_placed "a" 2%Z 11).2
          = Returned (Some e)
        /\ (Tracker.OrderMoveConfirmed tracker_placed "a" 2%Z 11).1
            <> tracker_placed)
  /\ (exists e,
        (Tracker.OrderCancelConfirmed tracker_placed "a" 2%Z).2
          = Returned (Some e)
        /\ (Tracker.OrderCancelConfirmed tracker_placed "a" 2%Z).1
            <> tracker_placed).
Proof.
  repeat split;
    (eexists; split; [vm_compute; reflexivity|];
     intros Heq; apply (f_equal (fun t => context t "a")) in Heq;
     vm_compute in Heq; discriminate Heq).
Qed.

(** C10.  [OrderMoving] and [OrderCancelling] return an error exactly when
    the identifier is unknown or the status is not Placed, and
    [OrderPlacing] exactly when the identifier is present; whenever one of
    the three returns an error the whole tracker is unchanged.  The
    confirmations and the rejection, in contrast, can fail and still
    change the tracker. *)
Theorem start_operations_atomic_on_error :
  (forall (t : Tracker.t) (clid : OrderClientID),
     ((exists e, (Tracker.OrderMoving t clid).2 = Returned (Some e))
      <-> (forall c, context t clid = Some c ->
                     orderContext.Status c <> OrderStatus.OrderPlaced))
     /\ (forall e, (Tracker.OrderMoving t clid).2 = Returned (Some e) ->
                   (Tracker.OrderMoving t clid).1 = t))
  /\ (forall (t : Tracker.t) (clid : OrderClientID),
        ((exists e, (Tracker.OrderCancelling t clid).2 = Returned (Some e))
         <-> (forall c, context t clid = Some c ->
                        orderContext.Status c <> OrderStatus.OrderPlaced))
        /\ (forall e, (Tracker.OrderCancelling t clid).2 = Returned (Some e) ->
                      (Tracker.OrderCancelling t clid).1 = t))
  /\ (forall (t : Tracker.t) (order : Order.t) (e : error),
        (Tracker.OrderPlacing t order).2 = Returned (Some e) ->
        (Tracker.OrderPlacing t order).1 = t)
  /\ (exists (t : Tracker.t) (clid : OrderClientID) (time : time.Time) (e : error),
        (Tracker.OrderPlaceConfirmed t clid time).2 = Returned (Some e)
        /\ (Tracker.OrderPlaceConfirmed t clid time).1 <> t)
  /\ (exists (t : Tracker.t) (clid : OrderClientID) (time : time.Time)
             (reason : string) (e : error),
        (Tracker.OrderRejected t clid time reason).2 = Returned (Some e)
        /\ (Tracker.OrderRejected t clid time reason).1 <> t).
Proof.
  split; [|split; [|split; [|split]]].
  - intros t clid. split.
    + apply OrderMoving_error_iff.
    + apply OrderMoving_error_unchanged.
  - intros t clid. split.
    + apply OrderCancelling_error_iff.
    + apply OrderCancelling_error_unchanged.
  - apply OrderPlacing_error_unchanged.
  - destruct confirmations_write_on_error as ([e He] & _).
    exists tracker_placed, "a", 2%Z, e. exact He.
  - destruct confirmations_write_on_error as (_ & [e He] & _).
    exists tracker_placed, "a", 2%Z, "late", e. exact He.
Qed.

Lemma start_operations_atomic_on_error_witness :
  (Tracker.OrderMoving tracker_placing "a").2
    = Returned (Some (ErrMovingNotPlaced "a" OrderStatus.OrderPlacing))
  /\ (Tracker.OrderMoving tracker_placing "a").1 = tracker_placing
  /\ (Tracker.OrderCancelling tracker_placing "zz").2
      = Returned (Some (ErrNotFound "zz"))
  /\ (Tracker.OrderCancelling tracker_placing "zz").1 = tracker_placing
  /\ (Tracker.OrderPlacing tracker_placing order_a).2
      = Returned (Some (ErrAlreadyPlaced "a"))
  /\ (Tracker.OrderPlacing tracker_placing order_a).1 = tracker_placing.
Proof.
  destruct start_operations_atomic_on_error as (Hmove & Hcancel & Hplace & _).
  assert (H1 : (Tracker.OrderMoving tracker_placing "a").2
               = Returned (Some (ErrMovingNotPlaced "a" OrderStatus.OrderPlacing)))
    by (vm_compute; reflexivity).
  assert (H2 : (Tracker.OrderCancelling tracker_placing "zz").2
               = Returned (Some (ErrNotFound "zz")))
    by (vm_compute; reflexivity).
  assert (H3 : (Tracker.OrderPlacing tracker_placing order_a).2
               = Returned (Some (ErrAlreadyPlaced "a")))
    by (vm_compute; reflexivity).
  split; [exact H1|].
  split; [exact (proj2 (Hmove tracker_placing "a") _ H1)|].
  split; [exact H2|].
  split; [exact (proj2 (Hcancel tracker_placing "zz") _ H2)|].
  split; [exact H3|].
  exact (Hplace tracker_placing order_a _ H3).
Defined.

(** ** Quotes *)

(** C8.  [PushQuote] leaves the pair (exchangeID, symbolID) with an entry
    that holds the given bid and ask, whatever their order, and the
    back-reference the entry had before ([nil] for a new entry); the map
    of the venue exists afterwards; every other pair, every other venue
    and the whole order index are as before. *)
Theorem PushQuote_frame (t : Tracker.t) (exchangeID : ExchangeID.t)
    (symbolID : SymbolID) (bid ask : N) :
  let t' := Tracker.PushQuote t exchangeID symbolID bid ask in
  quote t' exchangeID symbolID
    = Some {| marketData.bid := bid;
              marketData.ask := ask;
              marketData.orderContext :=
                match quote t exchangeID symbolID with
                | Some m => marketData.orderContext m
                | None => None
                end |}
  /\ is_Some (Tracker.exchanges t' !! exchangeID)
  /\ (forall exchangeID' symbolID',
        (exchangeID', symbolID') <> (exchangeID, symbolID) ->
        quote t' exchangeID' symbolID' = quote t exchangeID' symbolID')
  /\ (forall exchangeID',
        exchangeID' <> exchangeID ->
        Tracker.exchanges t' !! exchangeID' = Tracker.exchanges t !! exchangeID')
  /\ Tracker.orders t' = Tracker.orders t.
Proof.
  intros t'. subst t'. unfold Tracker.PushQuote.
  split; [|split; [|split; [|split]]].
  - rewrite quote_set_marketData.
    unfold quote, Tracker.exchange_or_make, Tracker.symbolContext_of.
    destruct (Tracker.exchanges t !! exchangeID) as [exchange|].
    + destruct (exchange !! symbolID) as [m|]; reflexivity.
    + rewrite lookup_empty. reflexivity.
  - unfold Tracker.set_marketData. simpl. rewrite lookup_insert_eq. eauto.
  - intros exchangeID' symbolID' Hne. now apply quote_set_marketData_ne.
  - intros exchangeID' Hne. unfold Tracker.set_marketData. simpl.
    apply lookup_insert_ne. congruence.
  - reflexivity.
Qed.

Lemma PushQuote_frame_witness :
  let t' := Tracker.PushQuote tracker_placing ExchangeID.ExchangeKraken "TEST" 9 3 in
  quote t' ExchangeID.ExchangeKraken "TEST" = Some (marketData.mk 9 3 None)
  /\ quote t' ExchangeID.ExchangeBinance "TEST"
     = Some (marketData.mk 0 0 (Some "a"))
  /\ context t' "a" = context tracker_placing "a".
Proof.
  intros t'.
  destruct (PushQuote_frame tracker_placing ExchangeID.ExchangeKraken "TEST" 9 3)
    as (Hnew & _ & Hother & _ & Horders).
  split; [exact Hnew|]. split.
  - fold t' in Hother. rewrite Hother; [reflexivity|].
    vm_compute. discriminate.
  - unfold context. fold t' in Horders. rewrite Horders. reflexivity.
Defined.

(** ** Confirmation of a placement *)

(** C4.  For a tracked order, [OrderPlaceConfirmed] sets the report kind to
    Placed and the report time to the given time; with status Placing it
    succeeds and the status becomes Placed; with any other status it
    returns an invalid-transition error and the status stays as it was. *)
Theorem OrderPlaceConfirmed_report_then_check (t : Tracker.t)
    (clid : OrderClientID) (c : orderContext.t) (time : time.Time) :
  context t clid = Some c ->
  let r := Tracker.OrderPlaceConfirmed t clid time in
  exists c',
    context r.1 clid = Some c'
    /\ ExecutionReport.Kind (orderContext.LastReport c')
       = ExecutionReportKind.ReportPlaced
    /\ ExecutionReport.Time (orderContext.LastReport c') = time
    /\ (orderContext.Status c = OrderStatus.OrderPlacing ->
          r.2 = Returned None
          /\ orderContext.Status c' = OrderStatus.OrderPlaced)
    /\ (orderContext.Status c <> OrderStatus.OrderPlacing ->
          (exists e, r.2 = Returned (Some e) /\ classify e = InvalidTransition)
          /\ orderContext.Status c' = orderContext.Status c).
Proof.
  intros Hc r. subst r. unfold Tracker.OrderPlaceConfirmed.
  unfold context in Hc. rewrite Hc. simpl.
  destruct (Z.eqb_spec (orderContext.Status c) OrderStatus.OrderPlacing)
    as [Heq|Hne]; simpl; eexists; (split; [apply context_store|]); simpl.
  - split; [reflexivity|]. split; [reflexivity|].
    split; [intros _; split; reflexivity|].
    intros Hne. contradiction.
  - split; [reflexivity|]. split; [reflexivity|].
    split; [intros Heq; contradiction|].
    intros _. split; [|reflexivity].
    eexists. split; reflexivity.
Qed.

Lemma OrderPlaceConfirmed_report_then_check_witness :
  (exists c',
     context (Tracker.OrderPlaceConfirmed tracker_placing "a" 5%Z).1 "a" = Some c'
     /\ ExecutionReport.Kind (orderContext.LastReport c')
        = ExecutionReportKind.ReportPlaced
     /\ orderContext.Status c' = OrderStatus.OrderPlaced)
  /\ (exists c',
        context (Tracker.OrderPlaceConfirmed tracker_placed "a" 5%Z).1 "a" = Some c'
        /\ ExecutionReport.Time (orderContext.LastReport c') = 5%Z
        /\ exists e,
             (Tracker.OrderPlaceConfirmed tracker_placed "a" 5%Z).2
               = Returned (Some e)
             /\ classify e = InvalidTransition).
Proof.
  split.
  - destruct (OrderPlaceConfirmed_report_then_check tracker_placing "a"
                (orderContext.mk OrderStatus.OrderPlacing order_a
                   ExecutionReport.zero) 5%Z eq_refl)
      as (c' & Hc' & Hkind & _ & Hok & _).
    exists c'. split; [exact Hc'|]. split; [exact Hkind|].
    exact (proj2 (Hok eq_refl)).
  - destruct (OrderPlaceConfirmed_report_then_check tracker_placed "a"
                (orderContext.mk OrderStatus.OrderPlaced order_a
                   (ExecutionReport.mk ExecutionReportKind.ReportPlaced 1%Z
                      "" 0 0)) 5%Z eq_refl)
      as (c' & Hc' & _ & Htime & _ & Herr).
    exists c'. split; [exact Hc'|]. split; [exact Htime|].
    refine (proj1 (Herr _)). vm_compute. discriminate.
Defined.

(** ** Rejection *)

(** C5.  For a tracked order, [OrderRejected] sets the report kind to
    Rejected and records the time and the reason; from Placing the status
    becomes Unplaced and the call succeeds; from Modifying or Canceling it
    becomes Placed and the call succeeds; from any other status the status
    is unchanged and an invalid-transition error is returned. *)
Theorem OrderRejected_transitions (t : Tracker.t) (clid : OrderClientID)
    (c : orderContext.t) (time : time.Time) (reason : string) :
  context t clid = Some c ->
  let r := Tracker.OrderRejected t clid time reason in
  exists c',
    context r.1 clid = Some c'
    /\ ExecutionReport.Kind (orderContext.LastReport c')
       = ExecutionReportKind.ReportRejected
    /\ ExecutionReport.Time (orderContext.LastReport c') = time
    /\ ExecutionReport.Message (orderContext.LastReport c') = reason
    /\ (orderContext.Status c = OrderStatus.OrderPlacing ->
          r.2 = Returned None
          /\ orderContext.Status c' = OrderStatus.OrderUnplaced)
    /\ (orderContext.Status c = OrderStatus.OrderModifying
        \/ orderContext.Status c = OrderStatus.OrderCanceling ->
          r.2 = Returned None
          /\ orderContext.Status c' = OrderStatus.OrderPlaced)
    /\ (orderContext.Status c <> OrderStatus.OrderPlacing ->
        orderContext.Status c <> OrderStatus.OrderModifying ->
        orderContext.Status c <> OrderStatus.OrderCanceling ->
          (exists e, r.2 = Returned (Some e) /\ classify e = InvalidTransition)
          /\ orderContext.Status c' = orderContext.Status c).
Proof.
  intros Hc r. subst r. unfold Tracker.OrderRejected.
  unfold context in Hc. rewrite Hc. simpl.
  destruct (Z.eqb_spec (orderContext.Status c) OrderStatus.OrderPlacing)
    as [Hplacing|Hplacing]; simpl;
    [|destruct (Z.eqb_spec (orderContext.Status c) OrderStatus.OrderModifying)
        as [Hmod|Hmod]; simpl;
      [|destruct (Z.eqb_spec (orderContext.Status c) OrderStatus.OrderCanceling)
          as [Hcan|Hcan]; simpl]];
    eexists; (split; [apply context_store|]); simpl;
    (split; [reflexivity|]); (split; [reflexivity|]); (split; [reflexivity|]).
  - split; [intros _; split; reflexivity|].
    split; [|intros Hne; contradiction].
    rewrite Hplacing. intros [Heq|Heq]; discriminate Heq.
  - split; [intros Heq; contradiction|].
    split; [intros _; split; reflexivity|].
    intros _ Hne. contradiction.
  - split; [intros Heq; contradiction|].
    split; [intros _; split; reflexivity|].
    intros _ _ Hne. contradiction.
  - split; [intros Heq; contradiction|].
    split; [intros [Heq|Heq]; contradiction|].
    intros _ _ _. split; [|reflexivity].
    eexists. split; reflexivity.
Qed.

Lemma OrderRejected_transitions_witness :
  (exists c',
     context (Tracker.OrderRejected tracker_modifying "a" 7%Z "price band").1 "a"
       = Some c'
     /\ ExecutionReport.Message (orderContext.LastReport c') = "price band"
     /\ orderContext.Status c' = OrderStatus.OrderPlaced)
  /\ (exists c',
        context (Tracker.OrderRejected tracker_placing "a" 7%Z "no funds").1 "a"
          = Some c'
        /\ orderContext.Status c' = OrderStatus.OrderUnplaced)
  /\ (exists c',
        context (Tracker.OrderRejected tracker_placed "a" 7%Z "stale").1 "a"
          = Some c'
        /\ ExecutionReport.Kind (orderContext.LastReport c')
           = ExecutionReportKind.ReportRejected
        /\ orderContext.Status c' = OrderStatus.OrderPlaced
        /\ exists e,
             (Tracker.OrderRejected tracker_placed "a" 7%Z "stale").2
               = Returned (Some e)
             /\ classify e = InvalidTransition).
Proof.
  split; [|split].
  - destruct (OrderRejected_transitions tracker_modifying "a"
                (orderContext.mk OrderStatus.OrderModifying order_a
                   (ExecutionReport.mk ExecutionReportKind.ReportNone 1%Z
                      "" 0 0)) 7%Z "price band" eq_refl)
      as (c' & Hc' & _ & _ & Hmsg & _ & Hrevert & _).
    exists c'. split; [exact Hc'|]. split; [exact Hmsg|].
    exact (proj2 (Hrevert (or_introl eq_refl))).
  - destruct (OrderRejected_transitions tracker_placing "a"
                (orderContext.mk OrderStatus.OrderPlacing order_a
                   ExecutionReport.zero) 7%Z "no funds" eq_refl)
      as (c' & Hc' & _ & _ & _ & Hunplace & _).
    exists c'. split; [exact Hc'|].
    exact (proj2 (Hunplace eq_refl)).
  - destruct (OrderRejected_transitions tracker_placed "a"
                (orderContext.mk OrderStatus.OrderPlaced order_a
                   (ExecutionReport.mk ExecutionReportKind.ReportPlaced 1%Z
                      "" 0 0)) 7%Z "stale" eq_refl)
      as (c' & Hc' & Hkind & _ & _ & _ & _ & Herr).
    assert (H1 : OrderStatus.OrderPlaced <> OrderStatus.OrderPlacing)
      by (vm_compute; discriminate).
    assert (H2 : OrderStatus.OrderPlaced <> OrderStatus.OrderModifying)
      by (vm_compute; discriminate).
    assert (H3 : OrderStatus.OrderPlaced <> OrderStatus.OrderCanceling)
      by (vm_compute; discriminate).
    destruct (Herr H1 H2 H3) as (He & Hstatus).
    exists c'. split; [exact Hc'|]. split; [exact Hkind|].
    split; [exact Hstatus | exact He].
Defined.

(** ** The order of a tracked cell *)

(** Case analysis on the tests a method makes: the status and kind
    comparisons and the division. *)
Ltac method_tests :=
  repeat (match goal with
          | |- context [(?a =? ?b)%Z] => destruct (Z.eqb_spec a b)
          | |- context [div64 ?a ?b] => destruct (div64 a b)
          end; simpl).

(** A method called for the cell [clid] whose content is known by [Hc]. *)
Ltac on_this_cell Hc :=
  let Hcell := fresh "Hcell" in
  pose proof Hc as Hcell; unfold context in Hcell;
  rewrite Hcell; simpl; method_tests; rewrite ?context_store.

(** A method called for another cell than the one the goal reads. *)
Ltac on_other_cell :=
  match goal with
  | |- context [Tracker.orders ?t !! ?k] =>
      destruct (Tracker.orders t !! k) eqn:?
  end; simpl; method_tests;
  rewrite ?context_store_ne by congruence.






(** ** Fills *)

Lemma add64_mul64 (a b c d : N) :
  add64 (mul64 a b) (mul64 c d) = ((a * b + c * d) mod uint64_modulus)%N.
Proof. unfold add64, mul64. now rewrite <- N.Div0.add_mod. Qed.

Lemma add64_small (a b : N) :
  (a + b < uint64_modulus)%N -> add64 a b = (a + b)%N.
Proof. intros Hlt. unfold add64. now apply N.mod_small. Qed.

Lemma div64_Some (a b : N) : b <> 0%N -> div64 a b = Some (a / b)%N.
Proof.
  intros Hb. unfold div64. destruct (N.eqb_spec b 0); [contradiction|reflexivity].
Qed.

Lemma div64_None (a b : N) : div64 a b = None <-> b = 0%N.
Proof.
  unfold div64. destruct (N.eqb_spec b 0); split; congruence.
Qed.

(** The first fill: the last report is not a fill report. *)
Lemma OrderFilled_single_trade (t : Tracker.t) (clid : OrderClientID)
    (c : orderContext.t) (time : time.Time) (executedAmount avgPrice : N) :
  context t clid = Some c ->
  ExecutionReport.Kind (orderContext.LastReport c)
    <> ExecutionReportKind.ReportFilled ->
  Tracker.OrderFilled t clid time executedAmount avgPrice
  = (Tracker.store clid
       (orderContext.mk OrderStatus.OrderFilled (orderContext.Order c)
          (ExecutionReport.mk ExecutionReportKind.ReportFilled time
             (ExecutionReport.Message (orderContext.LastReport c))
             executedAmount avgPrice)) t,
     Returned None).
Proof.
  intros Hc Hkind. unfold Tracker.OrderFilled.
  unfold context in Hc. rewrite Hc. simpl.
  destruct (Z.eqb_spec (ExecutionReport.Kind (orderContext.LastReport c))
              ExecutionReportKind.ReportFilled); [contradiction|reflexivity].
Qed.

(** A later fill: the last report is a fill report and the divisor is not
    zero. *)
Lemma OrderFilled_aggregate (t : Tracker.t) (clid : OrderClientID)
    (c : orderContext.t) (time : time.Time) (executedAmount avgPrice : N) :
  context t clid = Some c ->
  ExecutionReport.Kind (orderContext.LastReport c)
    = ExecutionReportKind.ReportFilled ->
  let prevAmount := ExecutionReport.Amount (orderContext.LastReport c) in
  let prevPrice := ExecutionReport.Price (orderContext.LastReport c) in
  ((prevAmount + executedAmount) mod uint64_modulus)%N <> 0%N ->
  Tracker.OrderFilled t clid time executedAmount avgPrice
  = (Tracker.store clid
       (orderContext.mk OrderStatus.OrderFilled (orderContext.Order c)
          (ExecutionReport.mk ExecutionReportKind.ReportFilled time
             (ExecutionReport.Message (orderContext.LastReport c))
             ((prevAmount + executedAmount) mod uint64_modulus)%N
             (((prevAmount * prevPrice + executedAmount * avgPrice)
                 mod uint64_modulus)
                / ((prevAmount + executedAmount) mod uint64_modulus))%N)) t,
     Returned None).
Proof.
  intros Hc Hkind prevAmount prevPrice Hdiv. unfold Tracker.OrderFilled.
  unfold context in Hc. rewrite Hc. simpl. rewrite Hkind. simpl.
  rewrite add64_mul64. fold prevAmount prevPrice.
  rewrite div64_Some by exact Hdiv. simpl.
  unfold ExecutionReport.set_Amount, ExecutionReport.set_Price,
    ExecutionReport.set_Time, orderContext.set_LastReport,
    orderContext.set_Status. simpl.
  rewrite Hkind. reflexivity.
Qed.

Lemma filled_with_store (t : Tracker.t) (clid : OrderClientID) (order : Order.t)
    (time : time.Time) (message : string) (amount price : N) :
  filled_with
    (Tracker.store clid
       (orderContext.mk OrderStatus.OrderFilled order
          (ExecutionReport.mk ExecutionReportKind.ReportFilled time message
             amount price)) t)
    clid amount price.
Proof.
  eexists. split; [apply context_store|]. repeat split.
Qed.

(** C1 (as amended).  For a tracked order whose last report is not a fill
    report, [OrderFilled] succeeds and records status Filled, report kind
    Filled, the executed amount and the given average price.  When the last
    report is a fill report the arithmetic is that of [uint64]: provided
    the sum of the amounts is not 0 modulo 2^64, the call succeeds, the
    new amount is (prevAmount + execAmount) mod 2^64 and the new price is
    ((prevAmount*prevPrice + execAmount*execPrice) mod 2^64) divided,
    truncating, by that amount; these are prevAmount + execAmount and
    (prevAmount*prevPrice + execAmount*execPrice) / (prevAmount +
    execAmount) whenever both sums are below 2^64 and the sum of the
    amounts is positive.  In particular a first fill of 100 at 10 followed
    by a fill of 300 at 20 gives amount 400, price 17, kind Filled, status
    Filled. *)
Theorem OrderFilled_vwap (t : Tracker.t) (clid : OrderClientID)
    (c : orderContext.t) (time : time.Time) (executedAmount avgPrice : N) :
  context t clid = Some c ->
  let kind := ExecutionReport.Kind (orderContext.LastReport c) in
  let prevAmount := ExecutionReport.Amount (orderContext.LastReport c) in
  let prevPrice := ExecutionReport.Price (orderContext.LastReport c) in
  let r := Tracker.OrderFilled t clid time executedAmount avgPrice in
  (kind <> ExecutionReportKind.ReportFilled ->
     r.2 = Returned None /\ filled_with r.1 clid executedAmount avgPrice)
  /\ (kind = ExecutionReportKind.ReportFilled ->
      ((prevAmount + executedAmount) mod uint64_modulus)%N <> 0%N ->
        r.2 = Returned None
        /\ filled_with r.1 clid
             ((prevAmount + executedAmount) mod uint64_modulus)%N
             (((prevAmount * prevPrice + executedAmount * avgPrice)
                 mod uint64_modulus)
                / ((prevAmount + executedAmount) mod uint64_modulus))%N)
  /\ (kind = ExecutionReportKind.ReportFilled ->
      (0 < prevAmount + executedAmount < uint64_modulus)%N ->
      (prevAmount * prevPrice + executedAmount * avgPrice < uint64_modulus)%N ->
        r.2 = Returned None
        /\ filled_with r.1 clid (prevAmount + executedAmount)%N
             ((prevAmount * prevPrice + executedAmount * avgPrice)
                / (prevAmount + executedAmount))%N)
  /\ (kind <> ExecutionReportKind.ReportFilled ->
      forall time1 time2,
        let r1 := Tracker.OrderFilled t clid time1 100 10 in
        let r2 := Tracker.OrderFilled r1.1 clid time2 300 20 in
        r1.2 = Returned None /\ r2.2 = Returned None
        /\ filled_with r2.1 clid 400 17).
Proof.
  intros Hc kind prevAmount prevPrice r. subst kind r.
  assert (Hlater : ExecutionReport.Kind (orderContext.LastReport c)
                   = ExecutionReportKind.ReportFilled ->
                   ((prevAmount + executedAmount) mod uint64_modulus)%N <> 0%N ->
                   (Tracker.OrderFilled t clid time executedAmount avgPrice).2
                   = Returned None
                   /\ filled_with
                        (Tracker.OrderFilled t clid time executedAmount avgPrice).1
                        clid
                        ((prevAmount + executedAmount) mod uint64_modulus)%N
                        (((prevAmount * prevPrice + executedAmount * avgPrice)
                            mod uint64_modulus)
                           / ((prevAmount + executedAmount) mod uint64_modulus))%N).
  { intros Hkind Hdiv.
    rewrite (OrderFilled_aggregate t clid c time executedAmount avgPrice
               Hc Hkind Hdiv).
    split; [reflexivity | apply filled_with_store]. }
  split; [|split; [exact Hlater|split]].
  - intros Hkind.
    rewrite (OrderFilled_single_trade t clid c time executedAmount avgPrice
               Hc Hkind).
    split; [reflexivity | apply filled_with_store].
  - intros Hkind [Hpos Hsum] Hprod.
    destruct (Hlater Hkind) as [Hret Hfilled].
    { rewrite (N.mod_small _ _ Hsum). lia. }
    rewrite !(N.mod_small _ _ Hsum), (N.mod_small _ _ Hprod) in Hfilled.
    split; [exact Hret | exact Hfilled].
  - intros Hkind time1 time2 r1 r2. subst r1 r2.
    rewrite (OrderFilled_single_trade t clid c time1 100 10 Hc Hkind). simpl.
    erewrite (OrderFilled_aggregate _ clid _ time2 300 20
                (context_store t clid _));
      [|reflexivity|vm_compute; discriminate].
    split; [reflexivity|]. split; [reflexivity|]. simpl.
    apply filled_with_store.
Qed.

Lemma OrderFilled_vwap_witness :
  filled_with (Tracker.OrderFilled tracker_placing "a" 1%Z 100 10).1 "a" 100 10
  /\ filled_with (Tracker.OrderFilled tracker_filled "a" 2%Z 300 20).1 "a" 400 17.
Proof.
  split.
  - destruct (OrderFilled_vwap tracker_placing "a"
                (orderContext.mk OrderStatus.OrderPlacing order_a
                   ExecutionReport.zero) 1%Z 100 10 eq_refl)
      as (Hfirst & _).
    refine (proj2 (Hfirst _)). vm_compute. discriminate.
  - destruct (OrderFilled_vwap tracker_filled "a"
                (orderContext.mk OrderStatus.OrderFilled order_a
                   (ExecutionReport.mk ExecutionReportKind.ReportFilled 1%Z
                      "" 100 10)) 2%Z 300 20 eq_refl)
      as (_ & _ & Hexact & _).
    refine (proj2 (Hexact eq_refl _ _)).
    + vm_compute. split; reflexivity.
    + vm_compute. reflexivity.
Defined.

(** C1 as stated fails when a product overflows: after a fill of
    5_000_000_000 at price 4_000_000_000, a second fill of the same amount
    at the same price does not leave the price
    (prevAmount*prevPrice + execAmount*execPrice) / (prevAmount + execAmount),
    which is 4_000_000_000; the code leaves 310_651_185. *)
Lemma OrderFilled_vwap_overflow :
  exists c,
    context tracker_filled_large "a" = Some c
    /\ ExecutionReport.Kind (orderContext.LastReport c)
       = ExecutionReportKind.ReportFilled
    /\ (let prevAmount := ExecutionReport.Amount (orderContext.LastReport c) in
        let prevPrice := ExecutionReport.Price (orderContext.LastReport c) in
        filled_with
          (Tracker.OrderFilled tracker_filled_large "a" 2%Z
             5000000000 4000000000).1
          "a" 10000000000 310651185
        /\ ~ filled_with
               (Tracker.OrderFilled tracker_filled_large "a" 2%Z
                  5000000000 4000000000).1
               "a" (prevAmount + 5000000000)%N
               ((prevAmount * prevPrice + 5000000000 * 4000000000)
                  / (prevAmount + 5000000000))%N).
Proof.
  eexists. split; [vm_compute; reflexivity|]. split; [reflexivity|].
  split.
  - eexists. split; [vm_compute; reflexivity|]. repeat split.
  - intros (c' & Hc' & _ & _ & _ & Hprice).
    vm_compute in Hc'. injection Hc' as <-.
    vm_compute in Hprice. discriminate Hprice.
Qed.

(** When [OrderFilled] returns an error, and when it panics. *)
Lemma OrderFilled_outcome (t : Tracker.t) (clid : OrderClientID)
    (time : time.Time) (executedAmount avgPrice : N) :
  let r := Tracker.OrderFilled t clid time executedAmount avgPrice in
  match context t clid with
  | None => r = (t, Returned (Some (ErrNotFound clid)))
  | Some c =>
      exists c',
        context r.1 clid = Some c'
        /\ orderContext.Status c' = OrderStatus.OrderFilled
        /\ (r.2 = Returned None
            \/ r.2 = Panicked divide_by_zero
               /\ ExecutionReport.Kind (orderContext.LastReport c)
                  = ExecutionReportKind.ReportFilled
               /\ add64 (ExecutionReport.Amount (orderContext.LastReport c))
                    executedAmount = 0%N)
  end.
Proof.
  simpl. unfold context at 1, Tracker.OrderFilled.
  destruct (Tracker.orders t !! clid) as [c|]; [|reflexivity]. simpl.
  destruct (Z.eqb_spec (ExecutionReport.Kind (orderContext.LastReport c))
              ExecutionReportKind.ReportFilled) as [Hkind|Hkind]; simpl.
  - destruct (div64 _ _) as [vwap|] eqn:Hdiv; simpl;
      eexists; (split; [apply context_store|]); (split; [reflexivity|]).
    + left. reflexivity.
    + right. apply div64_None in Hdiv. auto.
  - eexists. split; [apply context_store|]. split; [reflexivity|].
    left. reflexivity.
Qed.

Lemma OrderFilled_error_iff (t : Tracker.t) (clid : OrderClientID)
    (time : time.Time) (executedAmount avgPrice : N) :
  (exists e,
     (Tracker.OrderFilled t clid time executedAmount avgPrice).2
     = Returned (Some e))
  <-> context t clid = None.
Proof.
  pose proof (OrderFilled_outcome t clid time executedAmount avgPrice) as H.
  simpl in H. destruct (context t clid) as [c|].
  - destruct H as (c' & _ & _ & [Hr|[Hr _]]); rewrite Hr;
      split; try discriminate; intros [e He]; discriminate He.
  - rewrite H. simpl. split; eauto.
Qed.

(** C3 fails on the code.  A fill of amount 0 leaves a fill report with
    cumulative amount 0; a second fill of amount 0 for the same, known,
    identifier divides by 0 + 0: the call does not return, it panics, with
    the status and the time already written. *)
Theorem OrderFilled_zero_twice_panics :
  context tracker_filled_zero "a"
  = Some (orderContext.mk OrderStatus.OrderFilled order_a
            (ExecutionReport.mk ExecutionReportKind.ReportFilled 1%Z "" 0 5))
  /\ Tracker.OrderFilled tracker_filled_zero "a" 2%Z 0 5
     = (Tracker.store "a"
          (orderContext.mk OrderStatus.OrderFilled order_a
             (ExecutionReport.mk ExecutionReportKind.ReportFilled 2%Z "" 0 5))
          tracker_filled_zero,
        Panicked divide_by_zero).
Proof. split; vm_compute; reflexivity. Qed.

(** C2 fails on the code.  After a fill of 100, a rejection arrives for the
    filled order: it fails, leaves the amount at 100 and turns the report
    kind to Rejected.  The next fill, of 50, then takes the single-trade
    branch and the cumulative amount drops from 100 to 50. *)
Theorem OrderFilled_after_failed_reject_resets_Amount :
  let r1 := Tracker.OrderRejected tracker_filled "a" 2%Z "late" in
  let r2 := Tracker.OrderFilled r1.1 "a" 3%Z 50 11 in
  ExecutionReport.Amount <$> last_report tracker_filled "a" = Some 100%N
  /\ r1.2 = Returned (Some (ErrNotRejectable "a" OrderStatus.OrderFilled))
  /\ last_report r1.1 "a"
     = Some (ExecutionReport.mk ExecutionReportKind.ReportRejected 2%Z "late"
               100 10)
  /\ r2.2 = Returned None
  /\ last_report r2.1 "a"
     = Some (ExecutionReport.mk ExecutionReportKind.ReportFilled 3%Z "late"
               50 11).
Proof. repeat split; vm_compute; reflexivity. Qed.

(** What does hold of the cumulative amount: only [OrderFilled] for the
    order itself writes it, and a fill that follows a fill report adds to
    it as long as the sum fits 64 bits. *)
Lemma perform_other_call_Amount (t : Tracker.t) (clid : OrderClientID)
    (c : orderContext.t) (call : call) :
  context t clid = Some c ->
  (forall time executedAmount avgPrice,
     call <> CallOrderFilled clid time executedAmount avgPrice) ->
  exists c',
    context (perform t call).1 clid = Some c'
    /\ ExecutionReport.Amount (orderContext.LastReport c')
       = ExecutionReport.Amount (orderContext.LastReport c).
Proof.
  intros Hc Hcall.
  destruct call as [order|clid' time|clid' time reason|clid'|clid' time price
                   |clid'|clid' time|clid' time executedAmount avgPrice
                   |exchangeID symbolID bid ask]; simpl.
  - unfold Tracker.OrderPlacing.
    destruct (Tracker.orders t !! Order.ClientID order) as [c0|] eqn:Hc0; simpl.
    + eauto.
    + rewrite context_set_marketData, context_store_ne, Hc; [eauto|].
      intros Heq. unfold context in Hc. congruence.
  - unfold Tracker.OrderPlaceConfirmed.
    destruct (decide (clid' = clid)) as [->|Hne];
      [on_this_cell Hc | on_other_cell]; eauto.
  - unfold Tracker.OrderRejected.
    destruct (decide (clid' = clid)) as [->|Hne];
      [on_this_cell Hc | on_other_cell]; eauto.
  - unfold Tracker.OrderMoving.
    destruct (decide (clid' = clid)) as [->|Hne];
      [on_this_cell Hc | on_other_cell]; eauto.
  - unfold Tracker.OrderMoveConfirmed.
    destruct (decide (clid' = clid)) as [->|Hne];
      [on_this_cell Hc | on_other_cell]; eauto.
  - unfold Tracker.OrderCancelling.
    destruct (decide (clid' = clid)) as [->|Hne];
      [on_this_cell Hc | on_other_cell]; eauto.
  - unfold Tracker.OrderCancelConfirmed.
    destruct (decide (clid' = clid)) as [->|Hne];
      [on_this_cell Hc | on_other_cell]; eauto.
  - destruct (decide (clid' = clid)) as [->|Hne].
    + exfalso. exact (Hcall time executedAmount avgPrice eq_refl).
    + unfold Tracker.OrderFilled. on_other_cell; eauto.
  - unfold Tracker.PushQuote. rewrite context_set_marketData. eauto.
Qed.

Lemma OrderFilled_aggregate_Amount_grows (t : Tracker.t) (clid : OrderClientID)
    (c : orderContext.t) (time : time.Time) (executedAmount avgPrice : N) :
  context t clid = Some c ->
  ExecutionReport.Kind (orderContext.LastReport c)
    = ExecutionReportKind.ReportFilled ->
  (0 < ExecutionReport.Amount (orderContext.LastReport c) + executedAmount
     < uint64_modulus)%N ->
  exists c',
    context (Tracker.OrderFilled t clid time executedAmount avgPrice).1 clid
      = Some c'
    /\ ExecutionReport.Amount (orderContext.LastReport c')
       = (ExecutionReport.Amount (orderContext.LastReport c) + executedAmount)%N.
Proof.
  intros Hc Hkind [Hpos Hsum].
  rewrite (OrderFilled_aggregate t clid c time executedAmount avgPrice Hc Hkind).
  - simpl. eexists. split; [apply context_store|]. simpl.
    now apply N.mod_small.
  - rewrite (N.mod_small _ _ Hsum). lia.
Qed.

(** The amount also drops when the sum of two fills passes 2^64. *)
Lemma OrderFilled_Amount_wraps :
  let t :=
    perform_all NewTracker
      [CallOrderPlacing order_a;
       CallOrderFilled "a" 1%Z 18446744073709551615 1] in
  ExecutionReport.Amount <$> last_report t "a" = Some 18446744073709551615%N
  /\ ExecutionReport.Amount
       <$> last_report (Tracker.OrderFilled t "a" 2%Z 2 1).1 "a"
     = Some 1%N.
Proof. split; vm_compute; reflexivity. Qed.

(** ** Lookup *)

Lemma GetOrderStatus_tracked (t : Tracker.t) (clid : OrderClientID)
    (c : orderContext.t) (order : Order.t) (executionReport : ExecutionReport.t) :
  context t clid = Some c ->
  Tracker.GetOrderStatus t clid order executionReport
  = (orderContext.Order c, orderContext.LastReport c,
     (orderContext.Status c, None)).
Proof.
  intros Hc. unfold Tracker.GetOrderStatus. unfold context in Hc.
  now rewrite Hc.
Qed.

Lemma GetOrderStatus_unknown (t : Tracker.t) (clid : OrderClientID)
    (order : Order.t) (executionReport : ExecutionReport.t) :
  context t clid = None ->
  Tracker.GetOrderStatus t clid order executionReport
  = (order, executionReport,
     (OrderStatus.OrderUnplaced, Some (ErrNotFound clid))).
Proof.
  intros Hc. unfold Tracker.GetOrderStatus. unfold context in Hc.
  now rewrite Hc.
Qed.

Example GetOrderStatus_after_two_fills :
  Tracker.GetOrderStatus
    (perform_all tracker_filled [CallOrderFilled "a" 2%Z 300 20])
    "a" (NewOrder "" ExchangeID.ExchangeNone "" 0 0) ExecutionReport.zero
  = (order_a,
     ExecutionReport.mk ExecutionReportKind.ReportFilled 2%Z "" 400 17,
     (OrderStatus.OrderFilled, None)).
Proof. vm_compute. reflexivity. Qed.

Example Error_of_failed_move :
  (Tracker.OrderMoving tracker_placing "a").2
    = Returned (Some (ErrMovingNotPlaced "a" OrderStatus.OrderPlacing))
  /\ Error (ErrMovingNotPlaced "a" OrderStatus.OrderPlacing)
     = "orderContext status is not 'OrderPlaced' (clid a, status 'Placing')".
Proof. split; vm_compute; reflexivity. Qed.

(** * Further properties of the tracker *)

(** ** One call, seen from one cell *)

Lemma quote_store (t : Tracker.t) (clid : OrderClientID) (c : orderContext.t)
    (exchangeID : ExchangeID.t) (symbolID : SymbolID) :
  quote (Tracker.store clid c t) exchangeID symbolID = quote t exchangeID symbolID.
Proof. reflexivity. Qed.

Lemma quote_exchanges (t t' : Tracker.t) (exchangeID : ExchangeID.t)
    (symbolID : SymbolID) :
  Tracker.exchanges t' = Tracker.exchanges t ->
  quote t' exchangeID symbolID = quote t exchangeID symbolID.
Proof. intros Heq. unfold quote. now rewrite Heq. Qed.

(** A successful placement, written out. *)
Lemma OrderPlacing_fresh (t : Tracker.t) (order : Order.t) :
  context t (Order.ClientID order) = None ->
  Tracker.OrderPlacing t order
  = (let t1 :=
       Tracker.store (Order.ClientID order)
         (orderContext.mk OrderStatus.OrderPlacing order ExecutionReport.zero) t in
     Tracker.set_marketData (Order.Exchange order)
       (Tracker.exchange_or_make (Order.Exchange order) t1) (Order.Symbol order)
       (marketData.set_orderContext (Some (Order.ClientID order))
          (Tracker.symbolContext_of
             (Tracker.exchange_or_make (Order.Exchange order) t1)
             (Order.Symbol order)))
       t1,
     Returned None).
Proof.
  intros Hfresh. unfold Tracker.OrderPlacing. unfold context in Hfresh.
  now rewrite Hfresh.
Qed.

Lemma OrderPlacing_duplicate (t : Tracker.t) (order : Order.t)
    (c : orderContext.t) :
  context t (Order.ClientID order) = Some c ->
  Tracker.OrderPlacing t order
  = (t, Returned (Some (ErrAlreadyPlaced (Order.ClientID order)))).
Proof.
  intros Hc. unfold Tracker.OrderPlacing. unfold context in Hc.
  now rewrite Hc.
Qed.

(** A call made for another identifier, or a quote, leaves the cell as it
    is. *)
Lemma perform_other_cell (t : Tracker.t) (clid : OrderClientID) (call : call) :
  call_clid call <> Some clid ->
  context (perform t call).1 clid = context t clid.
Proof.
  intros Hcall.
  destruct call as [order|clid' time|clid' time reason|clid'|clid' time price
                   |clid'|clid' time|clid' time executedAmount avgPrice
                   |exchangeID symbolID bid ask]; simpl in *;
    try (assert (Hne : clid' <> clid) by congruence).
  - unfold Tracker.OrderPlacing.
    destruct (Tracker.orders t !! Order.ClientID order) as [c0|]; simpl;
      [reflexivity|].
    rewrite context_set_marketData. apply context_store_ne. congruence.
  - unfold Tracker.OrderPlaceConfirmed. on_other_cell; reflexivity.
  - unfold Tracker.OrderRejected. on_other_cell; reflexivity.
  - unfold Tracker.OrderMoving. on_other_cell; reflexivity.
  - unfold Tracker.OrderMoveConfirmed. on_other_cell; reflexivity.
  - unfold Tracker.OrderCancelling. on_other_cell; reflexivity.
  - unfold Tracker.OrderCancelConfirmed. on_other_cell; reflexivity.
  - unfold Tracker.OrderFilled. on_other_cell; reflexivity.
  - reflexivity.
Qed.

(** Only a placement and a quote write the market index. *)
Lemma perform_exchanges (t : Tracker.t) (call : call) :
  (forall order, call <> CallOrderPlacing order) ->
  (forall exchangeID symbolID bid ask,
     call <> CallPushQuote exchangeID symbolID bid ask) ->
  Tracker.exchanges (perform t call).1 = Tracker.exchanges t.
Proof.
  intros Hplace Hquote.
  destruct call as [order|clid' time|clid' time reason|clid'|clid' time price
                   |clid'|clid' time|clid' time executedAmount avgPrice
                   |exchangeID symbolID bid ask]; simpl.
  - exfalso. exact (Hplace order eq_refl).
  - unfold Tracker.OrderPlaceConfirmed.
    destruct (Tracker.orders t !! clid'); simpl; method_tests; reflexivity.
  - unfold Tracker.OrderRejected.
    destruct (Tracker.orders t !! clid'); simpl; method_tests; reflexivity.
  - unfold Tracker.OrderMoving.
    destruct (Tracker.orders t !! clid'); simpl; method_tests; reflexivity.
  - unfold Tracker.OrderMoveConfirmed.
    destruct (Tracker.orders t !! clid'); simpl; method_tests; reflexivity.
  - unfold Tracker.OrderCancelling.
    destruct (Tracker.orders t !! clid'); simpl; method_tests; reflexivity.
  - unfold Tracker.OrderCancelConfirmed.
    destruct (Tracker.orders t !! clid'); simpl; method_tests; reflexivity.
  - unfold Tracker.OrderFilled.
    destruct (Tracker.orders t !! clid'); simpl; method_tests; reflexivity.
  - exfalso. exact (Hquote exchangeID symbolID bid ask eq_refl).
Qed.

Lemma ExecutionReportKind_values_range (k : ExecutionReportKind.t) :
  k ∈ ExecutionReportKind_values <-> (0 <= k <= 5)%Z.
Proof.
  unfold ExecutionReportKind_values, ExecutionReportKind.ReportNone,
    ExecutionReportKind.ReportPlaced, ExecutionReportKind.ReportModified,
    ExecutionReportKind.ReportCanceled, ExecutionReportKind.ReportFilled,
    ExecutionReportKind.ReportRejected.
  rewrite !elem_of_cons, elem_of_nil. lia.
Qed.

Ltac status_step_tac :=
  try match goal with
      | H : orderContext.Status ?c = _
        |- status_step (orderContext.Status ?c) _ => rewrite H
      end;
  solve [constructor; tauto].

(** A call made for the identifier of a tracked cell: the cell stays, its
    status moves along [status_step], its order keeps the identifier, the
    venue, the instrument and the amount, and its report kind is kept or
    set to a declared constant. *)
Lemma perform_this_cell (t : Tracker.t) (clid : OrderClientID)
    (c : orderContext.t) (call : call) :
  context t clid = Some c ->
  call_clid call = Some clid ->
  exists c',
    context (perform t call).1 clid = Some c'
    /\ status_step (orderContext.Status c) (orderContext.Status c')
    /\ Order.ClientID (orderContext.Order c') = Order.ClientID (orderContext.Order c)
    /\ Order.Exchange (orderContext.Order c') = Order.Exchange (orderContext.Order c)
    /\ Order.Symbol (orderContext.Order c') = Order.Symbol (orderContext.Order c)
    /\ Order.Amount (orderContext.Order c') = Order.Amount (orderContext.Order c)
    /\ (ExecutionReport.Kind (orderContext.LastReport c')
          = ExecutionReport.Kind (orderContext.LastReport c)
        \/ ExecutionReport.Kind (orderContext.LastReport c')
             ∈ ExecutionReportKind_values).
Proof.
  intros Hc Hcall.
  assert (Hkinds : forall k, (0 <= k <= 5)%Z -> k ∈ ExecutionReportKind_values)
    by (intros k Hk; now apply ExecutionReportKind_values_range).
  destruct call as [order|clid' time|clid' time reason|clid'|clid' time price
                   |clid'|clid' time|clid' time executedAmount avgPrice
                   |exchangeID symbolID bid ask]; simpl in Hcall;
    try discriminate Hcall; injection Hcall as Hcall; simpl.
  - rewrite (OrderPlacing_duplicate t order c) by (now rewrite Hcall).
    simpl. exists c. split; [exact Hc|]. split; [constructor|]. tauto.
  - subst clid'. unfold Tracker.OrderPlaceConfirmed.
    on_this_cell Hc; eexists; (split; [reflexivity|]); simpl;
      (split; [status_step_tac|]);
      repeat (split; [reflexivity|]); right; apply Hkinds; vm_compute;
      split; discriminate.
  - subst clid'. unfold Tracker.OrderRejected.
    on_this_cell Hc; eexists; (split; [reflexivity|]); simpl;
      (split; [status_step_tac|]);
      repeat (split; [reflexivity|]); right; apply Hkinds; vm_compute;
      split; discriminate.
  - subst clid'. unfold Tracker.OrderMoving.
    on_this_cell Hc; eexists;
      (split; [first [reflexivity | exact Hc]|]); simpl;
      (split; [status_step_tac|]);
      repeat (split; [reflexivity|]);
      first [left; reflexivity
            | right; apply Hkinds; vm_compute; split; discriminate].
  - subst clid'. unfold Tracker.OrderMoveConfirmed.
    on_this_cell Hc; eexists; (split; [reflexivity|]); simpl;
      (split; [status_step_tac|]);
      repeat (split; [reflexivity|]); right; apply Hkinds; vm_compute;
      split; discriminate.
  - subst clid'. unfold Tracker.OrderCancelling.
    on_this_cell Hc; eexists;
      (split; [first [reflexivity | exact Hc]|]); simpl;
      (split; [status_step_tac|]);
      repeat (split; [reflexivity|]);
      first [left; reflexivity
            | right; apply Hkinds; vm_compute; split; discriminate].
  - subst clid'. unfold Tracker.OrderCancelConfirmed.
    on_this_cell Hc; eexists; (split; [reflexivity|]); simpl;
      (split; [status_step_tac|]);
      repeat (split; [reflexivity|]); right; apply Hkinds; vm_compute;
      split; discriminate.
  - subst clid'. unfold Tracker.OrderFilled.
    on_this_cell Hc; eexists; (split; [reflexivity|]); simpl;
      (split; [status_step_tac|]);
      repeat (split; [reflexivity|]);
      first [left; reflexivity
            | right; apply Hkinds; vm_compute; split; discriminate].
Qed.

Lemma status_step_values (s s' : OrderStatus.t) :
  status_step s s' -> s ∈ OrderStatus_values -> s' ∈ OrderStatus_values.
Proof.
  intros Hstep Hs. destruct Hstep; try exact Hs;
    apply OrderStatus_values_range; vm_compute; split; discriminate.
Qed.

(** A call for an identifier that is not tracked, other than a placement,
    returns the not-found error and changes nothing. *)
Lemma perform_unknown (t : Tracker.t) (clid : OrderClientID) (call : call) :
  context t clid = None ->
  call_clid call = Some clid ->
  (forall order, call <> CallOrderPlacing order) ->
  perform t call = (t, Returned (Some (ErrNotFound clid))).
Proof.
  intros Hc Hcall Hplace. unfold context in Hc.
  destruct call as [order|clid' time|clid' time reason|clid'|clid' time price
                   |clid'|clid' time|clid' time executedAmount avgPrice
                   |exchangeID symbolID bid ask]; simpl in Hcall;
    try discriminate Hcall; injection Hcall as <-; simpl.
  - exfalso. exact (Hplace order eq_refl).
  - unfold Tracker.OrderPlaceConfirmed. now rewrite Hc.
  - unfold Tracker.OrderRejected. now rewrite Hc.
  - unfold Tracker.OrderMoving. now rewrite Hc.
  - unfold Tracker.OrderMoveConfirmed. now rewrite Hc.
  - unfold Tracker.OrderCancelling. now rewrite Hc.
  - unfold Tracker.OrderCancelConfirmed. now rewrite Hc.
  - unfold Tracker.OrderFilled. now rewrite Hc.
Qed.

(** Any call, seen from a tracked cell. *)
Lemma perform_tracked (t : Tracker.t) (clid : OrderClientID)
    (c : orderContext.t) (call : call) :
  context t clid = Some c ->
  exists c',
    context (perform t call).1 clid = Some c'
    /\ status_step (orderContext.Status c) (orderContext.Status c')
    /\ Order.ClientID (orderContext.Order c') = Order.ClientID (orderContext.Order c)
    /\ Order.Exchange (orderContext.Order c') = Order.Exchange (orderContext.Order c)
    /\ Order.Symbol (orderContext.Order c') = Order.Symbol (orderContext.Order c)
    /\ Order.Amount (orderContext.Order c') = Order.Amount (orderContext.Order c)
    /\ (ExecutionReport.Kind (orderContext.LastReport c')
          = ExecutionReport.Kind (orderContext.LastReport c)
        \/ ExecutionReport.Kind (orderContext.LastReport c')
             ∈ ExecutionReportKind_values)
    /\ (call_clid call <> Some clid -> c' = c).
Proof.
  intros Hc.
  destruct (decide (call_clid call = Some clid)) as [Hcall|Hcall].
  - destruct (perform_this_cell t clid c call Hc Hcall)
      as (c' & Hc' & Hstep & Hid & Hex & Hsym & Ham & Hkind).
    exists c'. repeat (split; [assumption|]). intros Hne. contradiction.
  - exists c. rewrite (perform_other_cell t clid call Hcall).
    split; [exact Hc|]. split; [constructor|].
    repeat (split; [reflexivity|]). split; [left; reflexivity|]. reflexivity.
Qed.

(** Any call, seen from an identifier that is not tracked: it stays
    untracked unless the call places an order under it. *)
Lemma perform_untracked (t : Tracker.t) (clid : OrderClientID) (call : call) :
  context t clid = None ->
  context (perform t call).1 clid = None
  \/ exists order,
       call = CallOrderPlacing order
       /\ Order.ClientID order = clid
       /\ context (perform t call).1 clid
          = Some (orderContext.mk OrderStatus.OrderPlacing order
                    ExecutionReport.zero).
Proof.
  intros Hc.
  destruct (decide (call_clid call = Some clid)) as [Hcall|Hcall].
  - destruct call as [order| | | | | | | |];
      try (left; rewrite (perform_unknown t clid _ Hc Hcall); [exact Hc|];
           intros order; discriminate).
    right. exists order. simpl in Hcall. injection Hcall as Hid.
    split; [reflexivity|]. split; [exact Hid|]. simpl.
    rewrite OrderPlacing_fresh by (now rewrite Hid). simpl.
    rewrite context_set_marketData, Hid. apply context_store.
  - left. now rewrite (perform_other_cell t clid call Hcall).
Qed.

(** ** Confirmation of a cancellation *)



(** ** Unknown identifiers *)

(** For an identifier that is not tracked, every method that takes an
    identifier returns the not-found error and leaves the whole tracker
    unchanged, and [GetOrderStatus] returns status Unplaced with the same
    error and leaves both out-parameters as they were. *)
Theorem unknown_identifier_not_found (t : Tracker.t) (clid : OrderClientID) :
  context t clid = None ->
  (forall call,
     call_clid call = Some clid ->
     (forall order, call <> CallOrderPlacing order) ->
     perform t call = (t, Returned (Some (ErrNotFound clid))))
  /\ (forall order executionReport,
        Tracker.GetOrderStatus t clid order executionReport
        = (order, executionReport,
           (OrderStatus.OrderUnplaced, Some (ErrNotFound clid)))).
Proof.
  intros Hc. split.
  - intros call Hcall Hplace. now apply perform_unknown.
  - intros order executionReport. now apply GetOrderStatus_unknown.
Qed.

Lemma unknown_identifier_not_found_witness :
  perform tracker_placed (CallOrderFilled "zz" 3%Z 100 10)
  = (tracker_placed, Returned (Some (ErrNotFound "zz")))
  /\ Tracker.GetOrderStatus tracker_placed "zz" order_a ExecutionReport.zero
     = (order_a, ExecutionReport.zero,
        (OrderStatus.OrderUnplaced, Some (ErrNotFound "zz"))).
Proof.
  destruct (unknown_identifier_not_found tracker_placed "zz" eq_refl)
    as (Hcalls & Hget).
  split; [|apply Hget].
  apply Hcalls; [reflexivity|]. intros order. discriminate.
Defined.

(** ** Panics *)



(** ** The state machine *)

(** Whatever the call, a tracked order stays tracked and its status is
    unchanged or moves along one of the transitions of [status_step]; a
    call made for another identifier, and a quote, leave the cell exactly
    as it is. *)
Theorem calls_follow_the_state_machine (t : Tracker.t) (clid : OrderClientID)
    (c : orderContext.t) (call : call) :
  context t clid = Some c ->
  exists c',
    context (perform t call).1 clid = Some c'
    /\ status_step (orderContext.Status c) (orderContext.Status c')
    /\ (call_clid call <> Some clid -> c' = c).
Proof.
  intros Hc.
  destruct (perform_tracked t clid c call Hc)
    as (c' & Hc' & Hstep & _ & _ & _ & _ & _ & Hframe).
  exists c'. auto.
Qed.

Lemma calls_follow_the_state_machine_witness :
  exists c',
    context (perform tracker_placed (CallOrderCancelling "a")).1 "a" = Some c'
    /\ status_step OrderStatus.OrderPlaced (orderContext.Status c').
Proof.
  destruct (calls_follow_the_state_machine tracker_placed "a"
              (orderContext.mk OrderStatus.OrderPlaced order_a
                 (ExecutionReport.mk ExecutionReportKind.ReportPlaced 1%Z
                    "" 0 0))
              (CallOrderCancelling "a") eq_refl)
    as (c' & Hc' & Hstep & _).
  exists c'. split; [exact Hc' | exact Hstep].
Defined.

(** A call that returns an error changes neither the status nor the order
    of any tracked order. *)
Theorem error_keeps_status_and_order (t : Tracker.t) (clid : OrderClientID)
    (c : orderContext.t) (call : call) (e : error) :
  context t clid = Some c ->
  (perform t call).2 = Returned (Some e) ->
  exists c',
    context (perform t call).1 clid = Some c'
    /\ orderContext.Status c' = orderContext.Status c
    /\ orderContext.Order c' = orderContext.Order c.
Proof.
  intros Hc Herr.
  destruct (decide (call_clid call = Some clid)) as [Hcall|Hcall];
    [|exists c; rewrite (perform_other_cell t clid call Hcall); auto].
  destruct call as [order|clid' time|clid' time reason|clid'|clid' time price
                   |clid'|clid' time|clid' time executedAmount avgPrice
                   |exchangeID symbolID bid ask]; simpl in Hcall;
    try discriminate Hcall; injection Hcall as Hcall;
    cbv beta iota delta [perform] in Herr |- *.
  - rewrite (OrderPlacing_duplicate t order c) by (now rewrite Hcall).
    eauto.
  - subst clid'. revert Herr. unfold Tracker.OrderPlaceConfirmed.
    on_this_cell Hc; intros Herr; try discriminate Herr; eauto.
  - subst clid'. revert Herr. unfold Tracker.OrderRejected.
    on_this_cell Hc; intros Herr; try discriminate Herr; eauto.
  - subst clid'. revert Herr. unfold Tracker.OrderMoving.
    on_this_cell Hc; intros Herr; try discriminate Herr; eauto.
  - subst clid'. revert Herr. unfold Tracker.OrderMoveConfirmed.
    on_this_cell Hc; intros Herr; try discriminate Herr; eauto.
  - subst clid'. revert Herr. unfold Tracker.OrderCancelling.
    on_this_cell Hc; intros Herr; try discriminate Herr; eauto.
  - subst clid'. revert Herr. unfold Tracker.OrderCancelConfirmed.
    on_this_cell Hc; intros Herr; try discriminate Herr; eauto.
  - subst clid'. revert Herr. unfold Tracker.OrderFilled.
    on_this_cell Hc; intros Herr; discriminate Herr.
Qed.

Lemma error_keeps_status_and_order_witness :
  exists c',
    context (perform tracker_placing (CallOrderMoveConfirmed "a" 2%Z 99)).1 "a"
      = Some c'
    /\ orderContext.Status c' = OrderStatus.OrderPlacing
    /\ orderContext.Order c' = order_a.
Proof.
  apply (error_keeps_status_and_order tracker_placing "a"
           (orderContext.mk OrderStatus.OrderPlacing order_a ExecutionReport.zero)
           (CallOrderMoveConfirmed "a" 2%Z 99)
           (ErrNotModifying "a" OrderStatus.OrderPlacing));
    reflexivity.
Defined.

Lemma status_step_from_Filled (s' : OrderStatus.t) :
  status_step OrderStatus.OrderFilled s' -> s' = OrderStatus.OrderFilled.
Proof.
  intros Hstep. remember OrderStatus.OrderFilled as s eqn:Hs.
  destruct Hstep as [s| | |s [Hm|Hm]| | | | |s]; subst;
    try reflexivity; discriminate.
Qed.

Lemma status_step_from_Unplaced (s' : OrderStatus.t) :
  status_step OrderStatus.OrderUnplaced s' ->
  s' = OrderStatus.OrderUnplaced \/ s' = OrderStatus.OrderFilled.
Proof.
  intros Hstep. remember OrderStatus.OrderUnplaced as s eqn:Hs.
  destruct Hstep as [s| | |s [Hm|Hm]| | | | |s]; subst;
    try (left; reflexivity); try (right; reflexivity); discriminate.
Qed.

(** Filled is terminal and Unplaced is left only by a fill: after any
    sequence of calls an order that was Filled is Filled, and an order
    that was Unplaced is Unplaced or Filled. *)
Theorem Filled_and_Unplaced_are_final (calls : list call) :
  forall (t : Tracker.t) (clid : OrderClientID) (c : orderContext.t),
    context t clid = Some c ->
    orderContext.Status c = OrderStatus.OrderFilled
    \/ orderContext.Status c = OrderStatus.OrderUnplaced ->
    exists c',
      context (perform_all t calls) clid = Some c'
      /\ (orderContext.Status c' = OrderStatus.OrderFilled
          \/ orderContext.Status c' = orderContext.Status c).
Proof.
  induction calls as [|call calls IH]; intros t clid c Hc Hfinal; simpl.
  - eauto.
  - destruct (perform_tracked t clid c call Hc) as (c1 & Hc1 & Hstep & _).
    assert (Hc1final : orderContext.Status c1 = OrderStatus.OrderFilled
                       \/ orderContext.Status c1 = orderContext.Status c).
    { destruct Hfinal as [Hf|Hu].
      - rewrite Hf in Hstep. left. now apply status_step_from_Filled.
      - rewrite Hu in Hstep.
        destruct (status_step_from_Unplaced _ Hstep) as [H1|H1]; [right|left];
          congruence. }
    destruct (IH _ clid c1 Hc1) as (c' & Hc' & Hstatus).
    { destruct Hc1final as [H1|H1]; [left; exact H1|].
      rewrite H1. exact Hfinal. }
    exists c'. split; [exact Hc'|].
    destruct Hstatus as [H2|H2]; [left; exact H2|].
    destruct Hc1final as [H1|H1]; [left|right]; congruence.
Qed.

Lemma Filled_and_Unplaced_are_final_witness :
  exists c',
    context
      (perform_all tracker_filled
         [CallOrderPlaceConfirmed "a" 2%Z; CallOrderRejected "a" 3%Z "late";
          CallOrderCancelling "a"; CallOrderPlacing order_a]) "a" = Some c'
    /\ (orderContext.Status c' = OrderStatus.OrderFilled
        \/ orderContext.Status c' = OrderStatus.OrderFilled).
Proof.
  apply (Filled_and_Unplaced_are_final _ tracker_filled "a"
           (orderContext.mk OrderStatus.OrderFilled order_a
              (ExecutionReport.mk ExecutionReportKind.ReportFilled 1%Z
                 "" 100 10)) eq_refl).
  left. reflexivity.
Defined.

(** ** The order index *)

Lemma placed_ids_singleton (clid : OrderClientID) (call : call) :
  clid ∈ placed_ids [call]
  <-> exists order, call = CallOrderPlacing order /\ Order.ClientID order = clid.
Proof.
  destruct call as [order| | | | | | | |]; simpl;
    try (rewrite elem_of_empty; split; [contradiction|];
         intros (order & Heq & _); discriminate Heq).
  rewrite elem_of_union, elem_of_singleton, elem_of_empty. split.
  - intros [->|[]]. eauto.
  - intros (order' & Heq & <-). injection Heq as ->. left. reflexivity.
Qed.

Lemma perform_tracked_iff (t : Tracker.t) (call : call) (clid : OrderClientID) :
  is_Some (context (perform t call).1 clid)
  <-> is_Some (context t clid) \/ clid ∈ placed_ids [call].
Proof.
  destruct (context t clid) as [c|] eqn:Hc.
  - destruct (perform_tracked t clid c call Hc) as (c' & Hc' & _).
    rewrite Hc'. split; eauto.
  - destruct (perform_untracked t clid call Hc)
      as [Hnone|(order & -> & Hid & Hsome)].
    + rewrite Hnone. split.
      * intros [c' Hc']. discriminate Hc'.
      * intros [[c' Hc']|Hin]; [discriminate Hc'|].
        exfalso. apply placed_ids_singleton in Hin.
        destruct Hin as (order & -> & Hid). simpl in Hnone.
        rewrite OrderPlacing_fresh in Hnone by (now rewrite Hid).
        simpl in Hnone. rewrite context_set_marketData, Hid, context_store in Hnone.
        discriminate Hnone.
    + rewrite Hsome. split; [|eauto]. intros _. right.
      apply placed_ids_singleton. eauto.
Qed.

Lemma perform_dom (t : Tracker.t) (call : call) :
  dom (Tracker.orders (perform t call).1)
  = dom (Tracker.orders t) ∪ placed_ids [call].
Proof.
  apply set_eq. intros clid.
  rewrite elem_of_union, !elem_of_dom. apply perform_tracked_iff.
Qed.

Lemma placed_ids_cons (calls : list call) (call : call) :
  placed_ids (call :: calls) = placed_ids [call] ∪ placed_ids calls.
Proof.
  destruct call; simpl; rewrite ?(left_id_L ∅ (∪)), ?(right_id_L ∅ (∪));
    reflexivity.
Qed.

Lemma perform_all_dom (calls : list call) :
  forall t : Tracker.t,
    dom (Tracker.orders (perform_all t calls))
    = dom (Tracker.orders t) ∪ placed_ids calls.
Proof.
  induction calls as [|call calls IH]; intros t.
  - simpl. now rewrite (right_id_L ∅ (∪)).
  - change (perform_all t (call :: calls))
      with (perform_all (perform t call).1 calls).
    rewrite IH, perform_dom, (placed_ids_cons calls call).
    now rewrite (assoc_L (∪)).
Qed.

(** The tracker never forgets an order: after any sequence of calls the
    tracked identifiers are those tracked before together with those the
    sequence asked to place, so the order count never decreases; counted
    from a new tracker it is the number of distinct identifiers placed. *)
Theorem order_index_only_grows (calls : list call) :
  (forall t : Tracker.t,
     dom (Tracker.orders (perform_all t calls))
     = dom (Tracker.orders t) ∪ placed_ids calls
     /\ (Tracker.GetOrdersCount t
         <= Tracker.GetOrdersCount (perform_all t calls))%Z)
  /\ Tracker.GetOrdersCount (perform_all NewTracker calls)
     = Z.of_nat (size (placed_ids calls)).
Proof.
  split.
  - intros t. split; [apply perform_all_dom|].
    unfold Tracker.GetOrdersCount. apply inj_le.
    rewrite <- !size_dom, perform_all_dom.
    apply subseteq_size, union_subseteq_l.
  - unfold Tracker.GetOrdersCount.
    rewrite <- size_dom, perform_all_dom. simpl.
    rewrite dom_empty_L, (left_id_L ∅ (∪)). reflexivity.
Qed.

(** Once an identifier is tracked it can never be placed again, whatever
    has happened to its order since: after any sequence of calls
    [OrderPlacing] with that identifier returns the already-placed error
    and changes nothing. *)
Theorem identifier_is_never_reused (calls : list call) (t : Tracker.t)
    (order : Order.t) :
  is_Some (context t (Order.ClientID order)) ->
  Tracker.OrderPlacing (perform_all t calls) order
  = (perform_all t calls,
     Returned (Some (ErrAlreadyPlaced (Order.ClientID order)))).
Proof.
  intros Htracked.
  assert (Hdom : Order.ClientID order
                   ∈ dom (Tracker.orders (perform_all t calls))).
  { rewrite perform_all_dom. apply elem_of_union_l.
    now apply elem_of_dom. }
  apply elem_of_dom in Hdom. destruct Hdom as [c Hc].
  now apply (OrderPlacing_duplicate _ order c).
Qed.

Lemma identifier_is_never_reused_witness :
  let calls := [CallOrderCancelling "a"; CallOrderCancelConfirmed "a" 2%Z] in
  Tracker.OrderPlacing (perform_all tracker_placed calls) order_a
  = (perform_all tracker_placed calls, Returned (Some (ErrAlreadyPlaced "a"))).
Proof.
  intros calls.
  apply (identifier_is_never_reused calls tracker_placed order_a).
  eexists. vm_compute. reflexivity.
Defined.

(** ** Invariants of the trackers built from [NewTracker] *)

Lemma symbolContext_of_quote (t : Tracker.t) (exchangeID : ExchangeID.t)
    (symbolID : SymbolID) :
  Tracker.symbolContext_of (Tracker.exchange_or_make exchangeID t) symbolID
  = match quote t exchangeID symbolID with
    | Some m => m
    | None => marketData.zero
    end.
Proof.
  unfold Tracker.symbolContext_of, Tracker.exchange_or_make, quote.
  destruct (Tracker.exchanges t !! exchangeID) as [exchange|]; [reflexivity|].
  now rewrite lookup_empty.
Qed.

Lemma quote_set_marketData_cases (t : Tracker.t) (exchangeID exchangeID' : ExchangeID.t)
    (symbolID symbolID' : SymbolID) (m : marketData.t) :
  quote
    (Tracker.set_marketData exchangeID (Tracker.exchange_or_make exchangeID t)
       symbolID m t)
    exchangeID' symbolID'
  = if decide ((exchangeID', symbolID') = (exchangeID, symbolID))
    then Some m
    else quote t exchangeID' symbolID'.
Proof.
  destruct (decide ((exchangeID', symbolID') = (exchangeID, symbolID)))
    as [Heq|Hne].
  - injection Heq as -> ->. apply quote_set_marketData.
  - now apply quote_set_marketData_ne.
Qed.

Lemma consistent_NewTracker : consistent NewTracker.
Proof.
  split.
  - intros clid c Hc. unfold context, NewTracker in Hc. simpl in Hc.
    rewrite lookup_empty in Hc. discriminate Hc.
  - intros exchangeID symbolID m clid Hq. unfold quote, NewTracker in Hq.
    simpl in Hq. rewrite lookup_empty in Hq. discriminate Hq.
Qed.

Lemma consistent_PushQuote (t : Tracker.t) (exchangeID : ExchangeID.t)
    (symbolID : SymbolID) (bid ask : N) :
  consistent t -> consistent (Tracker.PushQuote t exchangeID symbolID bid ask).
Proof.
  intros [Hcells Hrefs]. unfold Tracker.PushQuote. split.
  - intros clid c Hc. rewrite context_set_marketData in Hc.
    destruct (Hcells clid c Hc) as (Hid & Hstatus & Hkind & Hquote).
    repeat (split; [assumption|]).
    rewrite quote_set_marketData_cases. case_decide; [eauto | exact Hquote].
  - intros exchangeID' symbolID' m clid Hq Href.
    rewrite quote_set_marketData_cases in Hq.
    setoid_rewrite context_set_marketData.
    case_decide as Hpair.
    + injection Hpair as -> ->. injection Hq as <-. simpl in Href.
      rewrite symbolContext_of_quote in Href.
      destruct (quote t exchangeID symbolID) as [m0|] eqn:Hq0;
        [|discriminate Href].
      exact (Hrefs exchangeID symbolID m0 clid Hq0 Href).
    + exact (Hrefs exchangeID' symbolID' m clid Hq Href).
Qed.

Lemma consistent_OrderPlacing (t : Tracker.t) (order : Order.t) :
  consistent t -> consistent (Tracker.OrderPlacing t order).1.
Proof.
  intros [Hcells Hrefs].
  destruct (context t (Order.ClientID order)) as [c0|] eqn:Hc0.
  { rewrite (OrderPlacing_duplicate t order c0 Hc0). now split. }
  rewrite (OrderPlacing_fresh t order Hc0). simpl. split.
  - intros clid c Hc. rewrite context_set_marketData in Hc.
    rewrite quote_set_marketData_cases.
    destruct (decide (Order.ClientID order = clid)) as [<-|Hne].
    + rewrite context_store in Hc. injection Hc as <-. simpl.
      split; [reflexivity|].
      split; [apply OrderStatus_values_range; vm_compute; split; discriminate|].
      split; [apply ExecutionReportKind_values_range; vm_compute;
              split; discriminate|].
      rewrite decide_True by reflexivity. eauto.
    + rewrite context_store_ne in Hc by exact Hne.
      destruct (Hcells clid c Hc) as (Hid & Hstatus & Hkind & Hquote).
      repeat (split; [assumption|]).
      case_decide; [eauto | exact Hquote].
  - intros exchangeID symbolID m clid Hq Href.
    rewrite quote_set_marketData_cases in Hq.
    setoid_rewrite context_set_marketData.
    case_decide as Hpair.
    + injection Hpair as -> ->. injection Hq as <-. simpl in Href.
      injection Href as <-. eexists. split; [apply context_store|].
      split; reflexivity.
    + rewrite quote_store in Hq.
      destruct (Hrefs exchangeID symbolID m clid Hq Href) as (c & Hc & Hpos).
      exists c. split; [|exact Hpos].
      rewrite context_store_ne; [exact Hc|]. congruence.
Qed.

Lemma consistent_order_call (t : Tracker.t) (call : call) :
  (forall order, call <> CallOrderPlacing order) ->
  (forall exchangeID symbolID bid ask,
     call <> CallPushQuote exchangeID symbolID bid ask) ->
  consistent t -> consistent (perform t call).1.
Proof.
  intros Hplace Hpush [Hcells Hrefs].
  pose proof (perform_exchanges t call Hplace Hpush) as Hex.
  split.
  - intros clid c' Hc'.
    destruct (context t clid) as [c|] eqn:Hc.
    + destruct (perform_tracked t clid c call Hc)
        as (c1 & Hc1 & Hstep & Hid & Hexch & Hsym & _ & Hkind & _).
      rewrite Hc1 in Hc'. injection Hc' as <-.
      destruct (Hcells clid c Hc) as (Hid0 & Hstatus0 & Hkind0 & Hquote0).
      split; [congruence|].
      split; [exact (status_step_values _ _ Hstep Hstatus0)|].
      split; [destruct Hkind as [->|Hk]; assumption|].
      rewrite Hexch, Hsym, (quote_exchanges t _ _ _ Hex). exact Hquote0.
    + destruct (perform_untracked t clid call Hc)
        as [Hnone|(order & Heq & _)].
      * rewrite Hnone in Hc'. discriminate Hc'.
      * exfalso. exact (Hplace order Heq).
  - intros exchangeID symbolID m clid Hq Href.
    rewrite (quote_exchanges t _ _ _ Hex) in Hq.
    destruct (Hrefs exchangeID symbolID m clid Hq Href) as (c & Hc & Hexch & Hsym).
    destruct (perform_tracked t clid c call Hc)
      as (c1 & Hc1 & _ & _ & Hexch1 & Hsym1 & _).
    exists c1. split; [exact Hc1|]. split; congruence.
Qed.

Lemma consistent_perform (t : Tracker.t) (call : call) :
  consistent t -> consistent (perform t call).1.
Proof.
  intros Ht.
  destruct call as [order|clid' time|clid' time reason|clid'|clid' time price
                   |clid'|clid' time|clid' time executedAmount avgPrice
                   |exchangeID symbolID bid ask];
    try (apply consistent_order_call; [discriminate|discriminate|exact Ht]).
  - now apply consistent_OrderPlacing.
  - now apply consistent_PushQuote.
Qed.

Lemma consistent_perform_all (calls : list call) :
  forall t : Tracker.t, consistent t -> consistent (perform_all t calls).
Proof.
  induction calls as [|call calls IH]; intros t Ht; simpl; [exact Ht|].
  apply IH. now apply consistent_perform.
Qed.

(** In every tracker built from a new one by calls, an order is filed under
    its own client identifier and its (venue, instrument) pair has market
    data. *)
Theorem tracked_order_is_filed_and_quoted (calls : list call)
    (clid : OrderClientID) (c : orderContext.t) :
  context (perform_all NewTracker calls) clid = Some c ->
  Order.ClientID (orderContext.Order c) = clid
  /\ is_Some (quote (perform_all NewTracker calls)
                (Order.Exchange (orderContext.Order c))
                (Order.Symbol (orderContext.Order c))).
Proof.
  intros Hc.
  destruct (consistent_perform_all calls NewTracker consistent_NewTracker)
    as [Hcells _].
  destruct (Hcells clid c Hc) as (Hid & _ & _ & Hquote). auto.
Qed.

Lemma tracked_order_is_filed_and_quoted_witness :
  is_Some (quote tracker_filled ExchangeID.ExchangeBinance "TEST").
Proof.
  exact (proj2 (tracked_order_is_filed_and_quoted
                  [CallOrderPlacing order_a; CallOrderFilled "a" 1%Z 100 10]
                  "a"
                  (orderContext.mk OrderStatus.OrderFilled order_a
                     (ExecutionReport.mk ExecutionReportKind.ReportFilled 1%Z
                        "" 100 10))
                  eq_refl)).
Defined.

(** In every tracker built from a new one by calls, the status of an order
    is one of the six declared statuses and the kind of its last report
    one of the six declared kinds. *)
Theorem status_and_kind_are_declared (calls : list call)
    (clid : OrderClientID) (c : orderContext.t) :
  context (perform_all NewTracker calls) clid = Some c ->
  orderContext.Status c ∈ OrderStatus_values
  /\ ExecutionReport.Kind (orderContext.LastReport c)
       ∈ ExecutionReportKind_values.
Proof.
  intros Hc.
  destruct (consistent_perform_all calls NewTracker consistent_NewTracker)
    as [Hcells _].
  destruct (Hcells clid c Hc) as (_ & Hstatus & Hkind & _). auto.
Qed.

Lemma status_and_kind_are_declared_witness :
  OrderStatus.OrderModifying ∈ OrderStatus_values
  /\ ExecutionReportKind.ReportNone ∈ ExecutionReportKind_values.
Proof.
  exact (status_and_kind_are_declared
           [CallOrderPlacing order_a; CallOrderPlaceConfirmed "a" 1%Z;
            CallOrderMoving "a"]
           "a"
           (orderContext.mk OrderStatus.OrderModifying order_a
              (ExecutionReport.mk ExecutionReportKind.ReportNone 1%Z "" 0 0))
           eq_refl).
Defined.

(** In every tracker built from a new one by calls, the back-reference of
    the market data of a (venue, instrument) pair leads to a tracked order
    of that venue and instrument. *)
Theorem back_reference_is_tracked (calls : list call)
    (exchangeID : ExchangeID.t) (symbolID : SymbolID) (m : marketData.t)
    (clid : OrderClientID) :
  quote (perform_all NewTracker calls) exchangeID symbolID = Some m ->
  marketData.orderContext m = Some clid ->
  exists c,
    context (perform_all NewTracker calls) clid = Some c
    /\ Order.Exchange (orderContext.Order c) = exchangeID
    /\ Order.Symbol (orderContext.Order c) = symbolID.
Proof.
  intros Hq Href.
  destruct (consistent_perform_all calls NewTracker consistent_NewTracker)
    as [_ Hrefs].
  exact (Hrefs exchangeID symbolID m clid Hq Href).
Qed.

Lemma back_reference_is_tracked_witness :
  exists c,
    context tracker_placed "a" = Some c
    /\ Order.Exchange (orderContext.Order c) = ExchangeID.ExchangeBinance
    /\ Order.Symbol (orderContext.Order c) = "TEST".
Proof.
  exact (back_reference_is_tracked
           [CallOrderPlacing order_a; CallOrderPlaceConfirmed "a" 1%Z]
           ExchangeID.ExchangeBinance "TEST"
           (marketData.mk 0 0 (Some "a")) "a" eq_refl eq_refl).
Defined.

(** ** The market index *)

(** A successful placement gives the (venue, instrument) pair of the order
    market data that keep the bid and ask the pair had (0 and 0 for a new
    pair) and refer back to the new order, replacing any earlier
    back-reference; every other pair and every other order are as
    before. *)
Theorem OrderPlacing_market_effect (t : Tracker.t) (order : Order.t) :
  context t (Order.ClientID order) = None ->
  let t' := (Tracker.OrderPlacing t order).1 in
  quote t' (Order.Exchange order) (Order.Symbol order)
  = Some {| marketData.bid :=
              match quote t (Order.Exchange order) (Order.Symbol order) with
              | Some m => marketData.bid m
              | None => 0%N
              end;
            marketData.ask :=
              match quote t (Order.Exchange order) (Order.Symbol order) with
              | Some m => marketData.ask m
              | None => 0%N
              end;
            marketData.orderContext := Some (Order.ClientID order) |}
  /\ (forall exchangeID symbolID,
        (exchangeID, symbolID) <> (Order.Exchange order, Order.Symbol order) ->
        quote t' exchangeID symbolID = quote t exchangeID symbolID)
  /\ (forall clid,
        clid <> Order.ClientID order -> context t' clid = context t clid).
Proof.
  intros Hfresh t'. subst t'. rewrite (OrderPlacing_fresh t order Hfresh).
  simpl. split; [|split].
  - rewrite quote_set_marketData, symbolContext_of_quote, quote_store.
    destruct (quote t (Order.Exchange order) (Order.Symbol order));
      reflexivity.
  - intros exchangeID symbolID Hne.
    now rewrite quote_set_marketData_ne, quote_store.
  - intros clid Hne. rewrite context_set_marketData.
    apply context_store_ne. congruence.
Qed.

Lemma OrderPlacing_market_effect_witness :
  let t := Tracker.PushQuote tracker_placing ExchangeID.ExchangeBinance "TEST" 9 12 in
  let order := NewOrder "b" ExchangeID.ExchangeBinance "TEST" 5 7 in
  quote (Tracker.OrderPlacing t order).1 ExchangeID.ExchangeBinance "TEST"
  = Some (marketData.mk 9 12 (Some "b")).
Proof.
  intros t order.
  exact (proj1 (OrderPlacing_market_effect t order eq_refl)).
Defined.

Lemma perform_keeps_quote (t : Tracker.t) (call : call)
    (exchangeID : ExchangeID.t) (symbolID : SymbolID) (m : marketData.t) :
  quote t exchangeID symbolID = Some m ->
  (forall bid ask, call <> CallPushQuote exchangeID symbolID bid ask) ->
  exists m',
    quote (perform t call).1 exchangeID symbolID = Some m'
    /\ marketData.bid m' = marketData.bid m
    /\ marketData.ask m' = marketData.ask m.
Proof.
  intros Hq Hcall.
  destruct call as [order|clid' time|clid' time reason|clid'|clid' time price
                   |clid'|clid' time|clid' time executedAmount avgPrice
                   |exchangeID' symbolID' bid ask];
    try (exists m; rewrite (quote_exchanges t); [auto|];
         apply perform_exchanges; discriminate).
  - simpl. destruct (context t (Order.ClientID order)) as [c0|] eqn:Hc0.
    + rewrite (OrderPlacing_duplicate t order c0 Hc0). eauto.
    + rewrite (OrderPlacing_fresh t order Hc0). simpl.
      rewrite quote_set_marketData_cases, quote_store.
      case_decide as Hpair; [|eauto].
      injection Hpair as -> ->. eexists. split; [reflexivity|].
      rewrite symbolContext_of_quote, quote_store, Hq. auto.
  - simpl. unfold Tracker.PushQuote. rewrite quote_set_marketData_ne; [eauto|].
    intros Hpair. injection Hpair as -> ->. exact (Hcall bid ask eq_refl).
Qed.

(** The bid and ask of a (venue, instrument) pair are written by
    [PushQuote] for that pair and by nothing else: over any sequence of
    calls without such a quote the pair keeps its market data entry, its
    bid and its ask. *)
Theorem bid_and_ask_change_only_by_PushQuote (calls : list call)
    (exchangeID : ExchangeID.t) (symbolID : SymbolID) :
  forall (t : Tracker.t) (m : marketData.t),
    quote t exchangeID symbolID = Some m ->
    Forall (fun call => forall bid ask,
                call <> CallPushQuote exchangeID symbolID bid ask) calls ->
    exists m',
      quote (perform_all t calls) exchangeID symbolID = Some m'
      /\ marketData.bid m' = marketData.bid m
      /\ marketData.ask m' = marketData.ask m.
Proof.
  induction calls as [|call calls IH]; intros t m Hq Hcalls; simpl.
  - eauto.
  - inversion Hcalls as [|? ? Hcall Hrest]; subst.
    destruct (perform_keeps_quote t call exchangeID symbolID m Hq Hcall)
      as (m1 & Hq1 & Hbid1 & Hask1).
    destruct (IH _ m1 Hq1 Hrest) as (m' & Hq' & Hbid' & Hask').
    exists m'. split; [exact Hq'|]. split; congruence.
Qed.

Lemma bid_and_ask_change_only_by_PushQuote_witness :
  let t := Tracker.PushQuote NewTracker ExchangeID.ExchangeBinance "TEST" 9 12 in
  exists m',
    quote
      (perform_all t
         [CallOrderPlacing order_a; CallOrderFilled "a" 1%Z 100 10;
          CallPushQuote ExchangeID.ExchangeKraken "TEST" 1 2])
      ExchangeID.ExchangeBinance "TEST" = Some m'
    /\ marketData.bid m' = 9%N
    /\ marketData.ask m' = 12%N.
Proof.
  intros t.
  apply (bid_and_ask_change_only_by_PushQuote _ ExchangeID.ExchangeBinance
           "TEST" t (marketData.mk 9 12 None) eq_refl).
  repeat (apply Forall_cons; split; [intros bid ask; discriminate|]).
  apply Forall_nil. exact I.
Defined.

Lemma PushQuote_exchanges (t : Tracker.t) (exchangeID : ExchangeID.t)
    (symbolID : SymbolID) (bid ask : N) :
  Tracker.exchanges (Tracker.PushQuote t exchangeID symbolID bid ask)
  = <[exchangeID :=
        <[symbolID :=
            marketData.mk bid ask
              (marketData.orderContext
                 (Tracker.symbolContext_of
                    (Tracker.exchange_or_make exchangeID t) symbolID))]>
          (Tracker.exchange_or_make exchangeID t)]>
      (Tracker.exchanges t).
Proof. reflexivity. Qed.

Lemma Tracker_eq (t t' : Tracker.t) :
  Tracker.exchanges t = Tracker.exchanges t' ->
  Tracker.orders t = Tracker.orders t' ->
  t = t'.
Proof. destruct t, t'. simpl. now intros -> ->. Qed.

Lemma exchange_or_make_PushQuote (t : Tracker.t) (exchangeID : ExchangeID.t)
    (symbolID : SymbolID) (bid ask : N) :
  Tracker.exchange_or_make exchangeID
    (Tracker.PushQuote t exchangeID symbolID bid ask)
  = <[symbolID :=
        marketData.mk bid ask
          (marketData.orderContext
             (Tracker.symbolContext_of
                (Tracker.exchange_or_make exchangeID t) symbolID))]>
      (Tracker.exchange_or_make exchangeID t).
Proof.
  unfold Tracker.exchange_or_make at 1. rewrite PushQuote_exchanges.
  now rewrite lookup_insert_eq.
Qed.

Lemma exchange_or_make_PushQuote_ne (t : Tracker.t)
    (exchangeID exchangeID' : ExchangeID.t) (symbolID : SymbolID) (bid ask : N) :
  exchangeID <> exchangeID' ->
  Tracker.exchange_or_make exchangeID'
    (Tracker.PushQuote t exchangeID symbolID bid ask)
  = Tracker.exchange_or_make exchangeID' t.
Proof.
  intros Hne. unfold Tracker.exchange_or_make. rewrite PushQuote_exchanges.
  now rewrite lookup_insert_ne.
Qed.

Lemma symbolContext_of_insert (exchange : gmap SymbolID marketData.t)
    (symbolID : SymbolID) (m : marketData.t) :
  Tracker.symbolContext_of (<[symbolID := m]> exchange) symbolID = m.
Proof. unfold Tracker.symbolContext_of. now rewrite lookup_insert_eq. Qed.

Lemma symbolContext_of_insert_ne (exchange : gmap SymbolID marketData.t)
    (symbolID symbolID' : SymbolID) (m : marketData.t) :
  symbolID <> symbolID' ->
  Tracker.symbolContext_of (<[symbolID := m]> exchange) symbolID'
  = Tracker.symbolContext_of exchange symbolID'.
Proof.
  intros Hne. unfold Tracker.symbolContext_of. now rewrite lookup_insert_ne.
Qed.

(** The last quote for a pair wins: two quotes for the same (venue,
    instrument) pair leave the tracker that the second alone leaves.
    Quotes for different pairs commute. *)
Theorem PushQuote_last_wins_and_commutes (t : Tracker.t)
    (exchangeID exchangeID' : ExchangeID.t) (symbolID symbolID' : SymbolID)
    (bid ask bid' ask' : N) :
  Tracker.PushQuote (Tracker.PushQuote t exchangeID symbolID bid ask)
    exchangeID symbolID bid' ask'
  = Tracker.PushQuote t exchangeID symbolID bid' ask'
  /\ ((exchangeID, symbolID) <> (exchangeID', symbolID') ->
      Tracker.PushQuote (Tracker.PushQuote t exchangeID symbolID bid ask)
        exchangeID' symbolID' bid' ask'
      = Tracker.PushQuote (Tracker.PushQuote t exchangeID' symbolID' bid' ask')
          exchangeID symbolID bid ask).
Proof.
  split.
  - apply Tracker_eq; [|reflexivity].
    rewrite (PushQuote_exchanges (Tracker.PushQuote t exchangeID symbolID bid ask)).
    rewrite exchange_or_make_PushQuote, symbolContext_of_insert.
    rewrite !PushQuote_exchanges. now rewrite !insert_insert_eq.
  - intros Hne. apply Tracker_eq; [|reflexivity].
    rewrite (PushQuote_exchanges (Tracker.PushQuote t exchangeID symbolID bid ask)).
    rewrite (PushQuote_exchanges (Tracker.PushQuote t exchangeID' symbolID' bid' ask')).
    destruct (decide (exchangeID = exchangeID')) as [<-|Hex].
    + assert (Hsym : symbolID <> symbolID') by congruence.
      rewrite !exchange_or_make_PushQuote.
      rewrite !symbolContext_of_insert_ne by congruence.
      rewrite !PushQuote_exchanges, !insert_insert_eq.
      f_equal. now apply insert_insert_ne.
    + rewrite !exchange_or_make_PushQuote_ne by congruence.
      rewrite !PushQuote_exchanges. apply insert_insert_ne. congruence.
Qed.

Lemma PushQuote_last_wins_and_commutes_witness :
  Tracker.PushQuote
    (Tracker.PushQuote tracker_placing ExchangeID.ExchangeBinance "TEST" 9 12)
    ExchangeID.ExchangeKraken "TEST" 1 2
  = Tracker.PushQuote
      (Tracker.PushQuote tracker_placing ExchangeID.ExchangeKraken "TEST" 1 2)
      ExchangeID.ExchangeBinance "TEST" 9 12.
Proof.
  apply (proj2 (PushQuote_last_wins_and_commutes tracker_placing
                  ExchangeID.ExchangeBinance ExchangeID.ExchangeKraken
                  "TEST" "TEST" 9 12 1 2)).
  vm_compute. discriminate.
Defined.

(** ** More on fills *)

Lemma weighted_average_bounds (a p b q : N) :
  (0 < a + b)%N ->
  let v := ((a * p + b * q) / (a + b))%N in
  (N.min p q <= v <= N.max p q)%N
  /\ (v * (a + b) <= a * p + b * q < (v + 1) * (a + b))%N.
Proof.
  intros Hpos v.
  assert (Hd : (a + b)%N <> 0%N) by lia.
  pose proof (N.Div0.mul_div_le (a * p + b * q) (a + b)) as Hle.
  pose proof (N.mul_succ_div_gt (a * p + b * q) (a + b) Hd) as Hgt.
  fold v in Hle, Hgt.
  split; [|lia].
  split.
  - destruct (N.min_spec p q) as [[Hpq ->]|[Hpq ->]]; nia.
  - destruct (N.max_spec p q) as [[Hpq ->]|[Hpq ->]]; nia.
Qed.

(** When a fill follows a fill report and nothing overflows, the new price
    lies between the previous price and the price of the fill, and the
    new price times the new amount is the summed notional of the two up to
    the truncation: it falls short of it by less than the new amount. *)
Theorem vwap_between_prices (t : Tracker.t) (clid : OrderClientID)
    (c : orderContext.t) (time : time.Time) (executedAmount avgPrice : N) :
  context t clid = Some c ->
  ExecutionReport.Kind (orderContext.LastReport c)
    = ExecutionReportKind.ReportFilled ->
  let prevAmount := ExecutionReport.Amount (orderContext.LastReport c) in
  let prevPrice := ExecutionReport.Price (orderContext.LastReport c) in
  (0 < prevAmount + executedAmount < uint64_modulus)%N ->
  (prevAmount * prevPrice + executedAmount * avgPrice < uint64_modulus)%N ->
  exists c',
    context (Tracker.OrderFilled t clid time executedAmount avgPrice).1 clid
      = Some c'
    /\ ExecutionReport.Amount (orderContext.LastReport c')
       = (prevAmount + executedAmount)%N
    /\ (N.min prevPrice avgPrice
        <= ExecutionReport.Price (orderContext.LastReport c')
        <= N.max prevPrice avgPrice)%N
    /\ (ExecutionReport.Price (orderContext.LastReport c')
          * (prevAmount + executedAmount)
        <= prevAmount * prevPrice + executedAmount * avgPrice
        < (ExecutionReport.Price (orderContext.LastReport c') + 1)
          * (prevAmount + executedAmount))%N.
Proof.
  intros Hc Hkind prevAmount prevPrice [Hpos Hsum] Hprod.
  rewrite (OrderFilled_aggregate t clid c time executedAmount avgPrice Hc Hkind).
  - fold prevAmount prevPrice. simpl.
    eexists. split; [apply context_store|]. simpl.
    rewrite !(N.mod_small _ _ Hsum), (N.mod_small _ _ Hprod).
    split; [reflexivity|].
    now apply weighted_average_bounds.
  - fold prevAmount. rewrite (N.mod_small _ _ Hsum). lia.
Qed.

Lemma vwap_between_prices_witness :
  exists c',
    context (Tracker.OrderFilled tracker_filled "a" 2%Z 300 20).1 "a" = Some c'
    /\ (10 <= ExecutionReport.Price (orderContext.LastReport c') <= 20)%N.
Proof.
  destruct (vwap_between_prices tracker_filled "a"
              (orderContext.mk OrderStatus.OrderFilled order_a
                 (ExecutionReport.mk ExecutionReportKind.ReportFilled 1%Z
                    "" 100 10)) 2%Z 300 20 eq_refl eq_refl)
    as (c' & Hc' & _ & Hbetween & _).
  - vm_compute. split; reflexivity.
  - vm_compute. reflexivity.
  - exists c'. split; [exact Hc' | exact Hbetween].
Defined.

Lemma OrderFilled_adds_Amount (t : Tracker.t) (clid : OrderClientID)
    (c : orderContext.t) (time : time.Time) (executedAmount avgPrice : N) :
  context t clid = Some c ->
  ExecutionReport.Kind (orderContext.LastReport c)
    = ExecutionReportKind.ReportFilled ->
  (ExecutionReport.Amount (orderContext.LastReport c) + executedAmount
   < uint64_modulus)%N ->
  exists c',
    context (Tracker.OrderFilled t clid time executedAmount avgPrice).1 clid
      = Some c'
    /\ ExecutionReport.Kind (orderContext.LastReport c')
       = ExecutionReportKind.ReportFilled
    /\ ExecutionReport.Amount (orderContext.LastReport c')
       = (ExecutionReport.Amount (orderContext.LastReport c) + executedAmount)%N.
Proof.
  intros Hc Hkind Hsum.
  destruct (N.eq_dec (ExecutionReport.Amount (orderContext.LastReport c)
                        + executedAmount)%N 0%N) as [Hzero|Hpos].
  - unfold Tracker.OrderFilled. unfold context in Hc. rewrite Hc. simpl.
    rewrite Hkind. simpl.
    assert (Hdiv : add64 (ExecutionReport.Amount (orderContext.LastReport c))
                     executedAmount = 0%N).
    { unfold add64. rewrite Hzero. reflexivity. }
    rewrite (proj2 (div64_None _ _) Hdiv). simpl.
    eexists. split; [apply context_store|]. simpl.
    split; [exact Hkind | lia].
  - rewrite (OrderFilled_aggregate t clid c time executedAmount avgPrice Hc Hkind).
    + simpl. eexists. split; [apply context_store|]. simpl.
      split; [reflexivity | now apply N.mod_small].
    + rewrite (N.mod_small _ _ Hsum). exact Hpos.
Qed.

(** Successive fills add up: on an order whose last report is a fill
    report, after any sequence of [OrderFilled] calls whose amounts,
    added to the cumulative amount, stay below 2^64, the cumulative amount
    is the old one plus the sum of the executed amounts (also across the
    calls that panic, which are those that add 0 to 0). *)
Theorem fills_accumulate (fills : list (time.Time * N * N)) :
  forall (t : Tracker.t) (clid : OrderClientID) (c : orderContext.t),
    context t clid = Some c ->
    ExecutionReport.Kind (orderContext.LastReport c)
      = ExecutionReportKind.ReportFilled ->
    (ExecutionReport.Amount (orderContext.LastReport c)
       + foldr (fun f total => f.1.2 + total) 0 fills
     < uint64_modulus)%N ->
    exists c',
      context
        (perform_all t
           (map (fun f => CallOrderFilled clid f.1.1 f.1.2 f.2) fills))
        clid = Some c'
      /\ ExecutionReport.Kind (orderContext.LastReport c')
         = ExecutionReportKind.ReportFilled
      /\ ExecutionReport.Amount (orderContext.LastReport c')
         = (ExecutionReport.Amount (orderContext.LastReport c)
            + foldr (fun f total => f.1.2 + total) 0 fills)%N.
Proof.
  induction fills as [|[[time amount] price] fills IH];
    intros t clid c Hc Hkind Hsum; simpl in *.
  - exists c. split; [exact Hc|]. split; [exact Hkind | lia].
  - destruct (OrderFilled_adds_Amount t clid c time amount price Hc Hkind)
      as (c1 & Hc1 & Hkind1 & Hamount1); [lia|].
    destruct (IH _ clid c1 Hc1 Hkind1) as (c' & Hc' & Hkind' & Hamount');
      [rewrite Hamount1; lia|].
    exists c'. split; [exact Hc'|]. split; [exact Hkind'|].
    rewrite Hamount', Hamount1. lia.
Qed.

Lemma fills_accumulate_witness :
  exists c',
    context
      (perform_all tracker_filled
         [CallOrderFilled "a" 2%Z 300 20; CallOrderFilled "a" 3%Z 0 7;
          CallOrderFilled "a" 4%Z 50 30]) "a" = Some c'
    /\ ExecutionReport.Amount (orderContext.LastReport c') = 450%N.
Proof.
  destruct (fills_accumulate [(2%Z, 300%N, 20%N); (3%Z, 0%N, 7%N);
                              (4%Z, 50%N, 30%N)]
              tracker_filled "a"
              (orderContext.mk OrderStatus.OrderFilled order_a
                 (ExecutionReport.mk ExecutionReportKind.ReportFilled 1%Z
                    "" 100 10)) eq_refl eq_refl)
    as (c' & Hc' & _ & Hamount).
  - vm_compute. reflexivity.
  - exists c'. split; [exact Hc' | exact Hamount].
Defined.

(** ** Request, then confirmation or rejection *)

(** Unfolds the methods of a sequence of calls for one cell whose content
    is known, reading back each write. *)
Ltac run_cell :=
  repeat first
    [ rewrite lookup_insert_eq
    | progress simpl
    | progress unfold Tracker.OrderPlaceConfirmed, Tracker.OrderRejected,
        Tracker.OrderMoving, Tracker.OrderMoveConfirmed,
        Tracker.OrderCancelling, Tracker.OrderCancelConfirmed,
        Tracker.store, context ].

(** A placement followed by its confirmation: both calls succeed for a
    fresh identifier, and [GetOrderStatus] then returns the order as it
    was placed, status Placed and a report of kind Placed with the
    confirmation time, whatever the out-parameters held. *)
Theorem place_then_confirm (t : Tracker.t) (order : Order.t) (time : time.Time)
    (order0 : Order.t) (executionReport0 : ExecutionReport.t) :
  context t (Order.ClientID order) = None ->
  let calls :=
    [CallOrderPlacing order;
     CallOrderPlaceConfirmed (Order.ClientID order) time] in
  perform_trace t calls = [Returned None; Returned None]
  /\ Tracker.GetOrderStatus (perform_all t calls) (Order.ClientID order)
       order0 executionReport0
     = (order,
        ExecutionReport.mk ExecutionReportKind.ReportPlaced time "" 0 0,
        (OrderStatus.OrderPlaced, None)).
Proof.
  intros Hfresh calls. subst calls.
  cbn [perform_trace perform_all perform].
  rewrite (OrderPlacing_fresh t order Hfresh).
  cbn [fst snd]. unfold Tracker.OrderPlaceConfirmed, Tracker.GetOrderStatus.
  unfold Tracker.set_marketData, Tracker.store.
  cbn [Tracker.orders]. rewrite lookup_insert_eq.
  cbn. rewrite lookup_insert_eq. split; reflexivity.
Qed.

Lemma place_then_confirm_witness :
  Tracker.GetOrderStatus
    (perform_all NewTracker
       [CallOrderPlacing order_a; CallOrderPlaceConfirmed "a" 7%Z])
    "a" order_a ExecutionReport.zero
  = (order_a, ExecutionReport.mk ExecutionReportKind.ReportPlaced 7%Z "" 0 0,
     (OrderStatus.OrderPlaced, None)).
Proof.
  exact (proj2 (place_then_confirm NewTracker order_a 7%Z order_a
                  ExecutionReport.zero eq_refl)).
Defined.





(** A cancellation of a placed order, start then confirmation: both calls
    succeed, the order ends Unplaced with a report of kind Canceled and
    the confirmation time, and stays tracked with its order unchanged. *)
Theorem cancel_round_trip (t : Tracker.t) (clid : OrderClientID)
    (c : orderContext.t) (time : time.Time) :
  context t clid = Some c ->
  orderContext.Status c = OrderStatus.OrderPlaced ->
  let calls := [CallOrderCancelling clid; CallOrderCancelConfirmed clid time] in
  perform_trace t calls = [Returned None; Returned None]
  /\ context (perform_all t calls) clid
     = Some (orderContext.mk OrderStatus.OrderUnplaced (orderContext.Order c)
               (ExecutionReport.mk ExecutionReportKind.ReportCanceled time
                  (ExecutionReport.Message (orderContext.LastReport c))
                  (ExecutionReport.Amount (orderContext.LastReport c))
                  (ExecutionReport.Price (orderContext.LastReport c)))).
Proof.
  intros Hc Hstatus calls. subst calls. unfold context in Hc.
  destruct c as [status order report]. simpl in Hstatus. subst status.
  run_cell. rewrite Hc. run_cell. split; reflexivity.
Qed.

Lemma cancel_round_trip_witness :
  context
    (perform_all tracker_placed
       [CallOrderCancelling "a"; CallOrderCancelConfirmed "a" 5%Z]) "a"
  = Some (orderContext.mk OrderStatus.OrderUnplaced order_a
            (ExecutionReport.mk ExecutionReportKind.ReportCanceled 5%Z "" 0 0)).
Proof.
  exact (proj2 (cancel_round_trip tracker_placed "a"
                  (orderContext.mk OrderStatus.OrderPlaced order_a
                     (ExecutionReport.mk ExecutionReportKind.ReportPlaced 1%Z
                        "" 0 0)) 5%Z eq_refl eq_refl)).
Defined.

(** A move or a cancellation of a placed order that the venue rejects:
    the start and the rejection both succeed, the order is Placed again
    with its order unchanged, and the report is of kind Rejected with the
    time and the reason of the rejection. *)
Theorem rejected_change_restores_Placed (t : Tracker.t) (clid : OrderClientID)
    (c : orderContext.t) (start : call) (time : time.Time) (reason : string) :
  context t clid = Some c ->
  orderContext.Status c = OrderStatus.OrderPlaced ->
  start = CallOrderMoving clid \/ start = CallOrderCancelling clid ->
  let calls := [start; CallOrderRejected clid time reason] in
  perform_trace t calls = [Returned None; Returned None]
  /\ context (perform_all t calls) clid
     = Some (orderContext.mk OrderStatus.OrderPlaced (orderContext.Order c)
               (ExecutionReport.mk ExecutionReportKind.ReportRejected time
                  reason
                  (ExecutionReport.Amount (orderContext.LastReport c))
                  (ExecutionReport.Price (orderContext.LastReport c)))).
Proof.
  intros Hc Hstatus Hstart calls. subst calls. unfold context in Hc.
  destruct c as [status order report]. simpl in Hstatus. subst status.
  destruct Hstart as [->| ->]; run_cell; rewrite Hc; run_cell;
    split; reflexivity.
Qed.

Lemma rejected_change_restores_Placed_witness :
  context
    (perform_all tracker_placed
       [CallOrderMoving "a"; CallOrderRejected "a" 5%Z "price band"]) "a"
  = Some (orderContext.mk OrderStatus.OrderPlaced order_a
            (ExecutionReport.mk ExecutionReportKind.ReportRejected 5%Z
               "price band" 0 0)).
Proof.
  exact (proj2 (rejected_change_restores_Placed tracker_placed "a"
                  (orderContext.mk OrderStatus.OrderPlaced order_a
                     (ExecutionReport.mk ExecutionReportKind.ReportPlaced 1%Z
                        "" 0 0))
                  (CallOrderMoving "a") 5%Z "price band" eq_refl eq_refl
                  (or_introl eq_refl))).
Defined.

(** ** Names of the venues *)

(** [ExchangeID.String] names the three venues None, Binance and Kraken,
    distinctly, and prints Unknown for every other integer, the sentinel
    [ExchangeCount] included. *)
Theorem ExchangeID_names :
  map ExchangeID.String
    [ExchangeID.ExchangeNone; ExchangeID.ExchangeBinance;
     ExchangeID.ExchangeKraken]
  = ["None"; "Binance"; "Kraken"]
  /\ ExchangeID.String ExchangeID.ExchangeCount = "Unknown"
  /\ (forall eid : ExchangeID.t,
        (eid < 0 \/ 2 < eid)%Z -> ExchangeID.String eid = "Unknown")
  /\ (forall a b : ExchangeID.t,
        (0 <= a <= 2)%Z -> (0 <= b <= 2)%Z ->
        ExchangeID.String a = ExchangeID.String b -> a = b).
Proof.
  split; [reflexivity|]. split; [reflexivity|]. split.
  - intros eid Hout.
    unfold ExchangeID.String, ExchangeID.ExchangeNone,
      ExchangeID.ExchangeBinance, ExchangeID.ExchangeKraken.
    repeat match goal with
           | |- context [(?a =? ?b)%Z] =>
               destruct (Z.eqb_spec a b) as [Heq|_]; [lia|]
           end.
    reflexivity.
  - intros a b Ha Hb.
    assert (Hcases : forall x : Z, (0 <= x <= 2)%Z -> x = 0%Z \/ x = 1%Z \/ x = 2%Z)
      by (intros x Hx; lia).
    destruct (Hcases a Ha) as [->|[->| ->]];
      destruct (Hcases b Hb) as [->|[->| ->]];
      vm_compute; congruence.
Qed.

Lemma ExchangeID_names_witness :
  ExchangeID.String 7%Z = "Unknown"
  /\ (ExchangeID.String 1%Z = ExchangeID.String 1%Z -> 1%Z = 1%Z).
Proof.
  destruct ExchangeID_names as (_ & _ & Hunknown & Hinj).
  split.
  - apply Hunknown. right. lia.
  - apply Hinj; lia.
Defined.

(** ** Generated identifiers and orders *)

Lemma hex_value_digit (d : N) : (d < 16)%N -> hex_value (hex_digit d) = d.
Proof.
  intros Hd.
  assert (Hcases : (d = 0 \/ d = 1 \/ d = 2 \/ d = 3 \/ d = 4 \/ d = 5
                    \/ d = 6 \/ d = 7 \/ d = 8 \/ d = 9 \/ d = 10 \/ d = 11
                    \/ d = 12 \/ d = 13 \/ d = 14 \/ d = 15)%N) by lia.
  repeat (destruct Hcases as [->|Hcases]; [reflexivity|]).
  subst d. reflexivity.
Qed.

Lemma shiftr_land_16 (u : N) : (16 * N.shiftr u 4 + N.land u 15 = u)%N.
Proof.
  rewrite N.shiftr_div_pow2. change 15%N with (N.ones 4).
  rewrite N.land_ones. change (2 ^ 4)%N with 16%N.
  symmetry. apply N.div_mod. discriminate.
Qed.

Lemma parse_formatBits16 (fuel : nat) :
  forall (u : N) (a : string),
    (u < 16 ^ N.of_nat (S fuel))%N ->
    parse_hex (formatBits16 fuel u a) 0 = parse_hex a u.
Proof.
  induction fuel as [|fuel IH]; intros u a Hu.
  - simpl. rewrite hex_value_digit by exact Hu.
    f_equal.
  - cbn [formatBits16]. destruct (N.leb_spec 16 u) as [Hge|Hlt].
    + rewrite IH.
      * cbn [parse_hex]. rewrite hex_value_digit.
        -- now rewrite shiftr_land_16.
        -- change 15%N with (N.ones 4). rewrite N.land_ones.
           apply N.mod_lt. discriminate.
      * rewrite N.shiftr_div_pow2. change (2 ^ 4)%N with 16%N.
        apply N.Div0.div_lt_upper_bound.
        rewrite <- N.pow_succ_r'. now rewrite <- Nat2N.inj_succ.
    + cbn [parse_hex]. rewrite hex_value_digit by exact Hlt. f_equal.
Qed.

Lemma parse_FormatUint16 (u : N) :
  (u < uint64_modulus)%N -> parse_hex (FormatUint16 u) 0 = u.
Proof.
  intros Hu. unfold FormatUint16. now rewrite parse_formatBits16.
Qed.

Lemma formatBits16_nonempty (fuel : nat) :
  forall (u : N) (a : string), formatBits16 fuel u a <> "".
Proof.
  induction fuel as [|fuel IH]; intros u a; simpl.
  - discriminate.
  - destruct (16 <=? u)%N; [apply IH | discriminate].
Qed.

Lemma FormatUint16_nonempty (u : N) : FormatUint16 u <> "".
Proof. apply formatBits16_nonempty. Qed.

(** The number [GenerateClientOrderID] formats: the seconds modulo 2^48 in
    the upper 48 bits, the incremented counter modulo 2^16 in the lower
    16. *)
Lemma client_id_number (now : Z) (counter : N) :
  N.lor (uint64_of_int64 (wrap_int64 (Z.shiftl now 16)))
        (N.land ((counter + 1) mod 2 ^ 32) 65535)
  = (Z.to_N (now mod 2 ^ 48) * 65536 + (counter + 1) mod 65536)%N.
Proof.
  assert (Hhigh : uint64_of_int64 (wrap_int64 (Z.shiftl now 16))
                  = (Z.to_N (now mod 2 ^ 48) * 65536)%N).
  { unfold uint64_of_int64, wrap_int64.
    rewrite Zminus_mod_idemp_l.
    replace (Z.shiftl now 16 + 2 ^ 63 - 2 ^ 63)%Z with (Z.shiftl now 16) by lia.
    rewrite Z.shiftl_mul_pow2 by lia.
    change (2 ^ 64)%Z with (2 ^ 48 * 2 ^ 16)%Z.
    rewrite Zmult_mod_distr_r.
    rewrite Z2N.inj_mul by (try apply Z.mod_pos_bound; lia).
    reflexivity. }
  assert (Hlow : N.land ((counter + 1) mod 2 ^ 32) 65535
                 = ((counter + 1) mod 65536)%N).
  { change 65535%N with (N.ones 16). rewrite N.land_ones.
    change (2 ^ 32)%N with (2 ^ 16 * 2 ^ 16)%N.
    rewrite N.Div0.mod_mul_r.
    rewrite N.mul_comm, N.Div0.mod_add. now rewrite N.Div0.mod_mod. }
  rewrite Hhigh, Hlow.
  rewrite <- N.lxor_lor, <- N.add_nocarry_lxor; try reflexivity.
  - apply N.bits_inj. intros n. rewrite N.land_spec, N.bits_0.
    destruct (N.lt_ge_cases n 16) as [Hn|Hn].
    + change 65536%N with (2 ^ 16)%N.
      rewrite N.mul_pow2_bits_low by exact Hn. reflexivity.
    + change 65536%N with (2 ^ 16)%N.
      rewrite (N.mod_pow2_bits_high _ _ _ Hn). apply andb_false_r.
  - apply N.bits_inj. intros n. rewrite N.land_spec, N.bits_0.
    destruct (N.lt_ge_cases n 16) as [Hn|Hn].
    + change 65536%N with (2 ^ 16)%N.
      rewrite N.mul_pow2_bits_low by exact Hn. reflexivity.
    + change 65536%N with (2 ^ 16)%N.
      rewrite (N.mod_pow2_bits_high _ _ _ Hn). apply andb_false_r.
Qed.

Lemma client_id_number_bound (now : Z) (counter : N) :
  (Z.to_N (now mod 2 ^ 48) * 65536 + (counter + 1) mod 65536 < uint64_modulus)%N.
Proof.
  assert (Hh : (Z.to_N (now mod 2 ^ 48) < 2 ^ 48)%N).
  { change (2 ^ 48)%N with (Z.to_N (2 ^ 48)).
    apply Z2N.inj_lt; try apply Z.mod_pos_bound; lia. }
  assert (Hl : ((counter + 1) mod 65536 < 65536)%N)
    by (apply N.mod_lt; discriminate).
  change uint64_modulus with (2 ^ 48 * 65536)%N. nia.
Qed.

Lemma GenerateClientOrderID_number (now : Z) (counter : N) :
  parse_hex (GenerateClientOrderID now counter).1 0
  = (Z.to_N (now mod 2 ^ 48) * 65536 + (counter + 1) mod 65536)%N.
Proof.
  unfold GenerateClientOrderID. cbn [fst].
  rewrite client_id_number. apply parse_FormatUint16.
  apply client_id_number_bound.
Qed.

(** [GenerateClientOrderID] never returns the empty identifier, and the
    identifier spells, in hexadecimal, the seconds modulo 2^48 times 2^16
    plus the incremented counter modulo 2^16.  Hence two calls whose
    incremented counters differ modulo 2^16 return different identifiers
    whatever the clock, two successive calls in particular; and in one
    second the identifier comes back after 65536 calls. *)
Theorem GenerateClientOrderID_unique_within_window :
  (forall now counter, (GenerateClientOrderID now counter).1 <> "")
  /\ (forall now counter,
        parse_hex (GenerateClientOrderID now counter).1 0
        = (Z.to_N (now mod 2 ^ 48) * 65536 + (counter + 1) mod 65536)%N)
  /\ (forall now now' counter counter',
        ((counter + 1) mod 65536 <> (counter' + 1) mod 65536)%N ->
        (GenerateClientOrderID now counter).1
        <> (GenerateClientOrderID now' counter').1)
  /\ (forall now now' counter,
        (GenerateClientOrderID now' (GenerateClientOrderID now counter).2).1
        <> (GenerateClientOrderID now counter).1)
  /\ (forall now counter,
        (GenerateClientOrderID now (counter + 65536)).1
        = (GenerateClientOrderID now counter).1).
Proof.
  assert (Hdistinct :
            forall now now' counter counter',
              ((counter + 1) mod 65536 <> (counter' + 1) mod 65536)%N ->
              (GenerateClientOrderID now counter).1
              <> (GenerateClientOrderID now' counter').1).
  { intros now now' counter counter' Hne Heq.
    apply (f_equal (fun s => parse_hex s 0)) in Heq.
    rewrite !GenerateClientOrderID_number in Heq.
    apply (f_equal (fun n => (n mod 65536)%N)) in Heq.
    rewrite !(N.add_comm (_ * 65536)), !N.Div0.mod_add, !N.Div0.mod_mod in Heq.
    exact (Hne Heq). }
  split; [|split; [|split; [|split]]].
  - intros now counter. apply FormatUint16_nonempty.
  - apply GenerateClientOrderID_number.
  - exact Hdistinct.
  - intros now now' counter. apply Hdistinct.
    unfold GenerateClientOrderID. cbn [snd].
    change (2 ^ 32)%N with (65536 * 65536)%N.
    intros Heq.
    assert (Hmod : (((counter + 1) mod (65536 * 65536) + 1) mod 65536
                    = (counter + 1 + 1) mod 65536)%N).
    { rewrite N.Div0.mod_mul_r.
      rewrite <- N.add_assoc, (N.add_comm (65536 * _)), N.add_assoc.
      rewrite (N.mul_comm 65536), N.Div0.mod_add.
      now rewrite N.Div0.add_mod_idemp_l. }
    rewrite Hmod in Heq.
    pose proof (N.div_mod (counter + 1) 65536) as H1.
    pose proof (N.div_mod (counter + 1 + 1) 65536) as H2.
    assert (Hl : ((counter + 1) mod 65536 < 65536)%N)
      by (apply N.mod_lt; discriminate).
    assert (Hl' : ((counter + 1 + 1) mod 65536 < 65536)%N)
      by (apply N.mod_lt; discriminate).
    specialize (H1 ltac:(discriminate)). specialize (H2 ltac:(discriminate)).
    nia.
  - intros now counter. unfold GenerateClientOrderID. cbn [fst].
    rewrite !client_id_number.
    replace (counter + 65536 + 1)%N with (counter + 1 + 1 * 65536)%N by lia.
    now rewrite N.Div0.mod_add.
Qed.

Lemma GenerateClientOrderID_unique_within_window_witness :
  (GenerateClientOrderID 1700000000 41).1 = "6553f100002a"
  /\ (GenerateClientOrderID 1700000001 7).1
     <> (GenerateClientOrderID 1700000000 41).1.
Proof.
  split; [vm_compute; reflexivity|].
  destruct GenerateClientOrderID_unique_within_window as (_ & _ & Hdistinct & _).
  apply Hdistinct. vm_compute. discriminate.
Defined.

(** With draws in the ranges [rand.IntN] and [rand.Uint64N] promise,
    [GenerateOrderWithSymbol] returns an order for the given instrument,
    with a non-empty identifier, the venue Binance or Kraken, an amount
    between 1 and 1_000_000_000 and a price between 1 and 1_000_000, so
    that amount times price fits 64 bits; placed in a new tracker it is
    accepted, counted once and reported with status Placing. *)
Theorem GenerateOrderWithSymbol_is_placeable (symbol : SymbolID) (now : Z)
    (clientIDCounter : N) (drawExchange : Z) (drawAmount drawPrice : N) :
  (0 <= drawExchange < ExchangeID.ExchangeCount - 1)%Z ->
  (drawAmount < 1000000000)%N ->
  (drawPrice < 1000000)%N ->
  let order :=
    (GenerateOrderWithSymbol symbol now clientIDCounter drawExchange
       drawAmount drawPrice).1 in
  Order.Symbol order = symbol
  /\ Order.ClientID order <> ""
  /\ (Order.Exchange order = ExchangeID.ExchangeBinance
      \/ Order.Exchange order = ExchangeID.ExchangeKraken)
  /\ (1 <= Order.Amount order <= 1000000000)%N
  /\ (1 <= Order.Price order <= 1000000)%N
  /\ (Order.Amount order * Order.Price order < uint64_modulus)%N
  /\ (let r := Tracker.OrderPlacing NewTracker order in
      r.2 = Returned None
      /\ Tracker.GetOrdersCount r.1 = 1%Z
      /\ Tracker.GetOrderStatus r.1 (Order.ClientID order) order
           ExecutionReport.zero
         = (order, ExecutionReport.zero, (OrderStatus.OrderPlacing, None))).
Proof.
  intros Hexchange Hamount Hprice order.
  assert (Ha : Order.Amount order = (drawAmount + 1)%N).
  { subst order. unfold GenerateOrderWithSymbol. cbn [fst Order.Amount].
    apply add64_small. unfold uint64_modulus. lia. }
  assert (Hp : Order.Price order = (drawPrice + 1)%N).
  { subst order. unfold GenerateOrderWithSymbol. cbn [fst Order.Price].
    apply add64_small. unfold uint64_modulus. lia. }
  split; [reflexivity|].
  split; [apply FormatUint16_nonempty|].
  split.
  { subst order. unfold GenerateOrderWithSymbol. cbn [fst Order.Exchange].
    unfold ExchangeID.ExchangeCount, ExchangeID.ExchangeBinance,
      ExchangeID.ExchangeKraken in *. lia. }
  split; [rewrite Ha; lia|].
  split; [rewrite Hp; lia|].
  split; [rewrite Ha, Hp; unfold uint64_modulus; nia|].
  assert (Hfresh : context NewTracker (Order.ClientID order) = None).
  { unfold context, NewTracker. simpl. apply lookup_empty. }
  rewrite (OrderPlacing_fresh NewTracker order Hfresh). cbn [fst snd].
  split; [reflexivity|]. split.
  - unfold Tracker.GetOrdersCount, Tracker.set_marketData, Tracker.store.
    cbn [Tracker.orders NewTracker].
    rewrite map_size_insert_None by apply lookup_empty.
    rewrite map_size_empty. reflexivity.
  - unfold Tracker.GetOrderStatus, Tracker.set_marketData, Tracker.store.
    cbn [Tracker.orders]. rewrite lookup_insert_eq. reflexivity.
Qed.

Lemma GenerateOrderWithSymbol_is_placeable_witness :
  let order :=
    (GenerateOrderWithSymbol "TEST" 1700000000 41 1 999999999 0).1 in
  Order.Exchange order = ExchangeID.ExchangeKraken
  /\ Order.Amount order = 1000000000%N
  /\ Order.Price order = 1%N
  /\ Tracker.GetOrdersCount (Tracker.OrderPlacing NewTracker order).1 = 1%Z.
Proof.
  intros order.
  destruct (GenerateOrderWithSymbol_is_placeable "TEST" 1700000000 41 1
              999999999 0)
    as (_ & _ & _ & _ & _ & _ & _ & Hcount & _).
  - vm_compute. split; [discriminate | reflexivity].
  - vm_compute. reflexivity.
  - vm_compute. reflexivity.
  - split; [vm_compute; reflexivity|].
    split; [vm_compute; reflexivity|].
    split; [vm_compute; reflexivity|]. exact Hcount.
Defined.
